(** * ProtobufToJsonMiddleware: a shallow embedding of
      [fastapi_better_mixed_server_asgi.py]

    The file follows the Python module top-down: ASGI messages and scopes,
    the closures [new_receive] and [new_send], the body of [__call__], the
    [/classroom] endpoint, and then the properties of the translation layer. *)

From Stdlib Require Import Ascii String ZArith Floats.
From stdpp Require Import gmap strings list pretty.
From Ceres Require Import Ceres.

(** ** Bytes

    A Python [bytes] value is a sequence of 8-bit characters, which is what a
    Rocq [string] is. *)

Abbreviation bytes := string.

Definition lower_byte (c : ascii) : ascii :=
  let n := nat_of_ascii c in
  if (65 <=? n)%nat && (n <=? 90)%nat then ascii_of_nat (n + 32) else c.

(** [bytes.lower()]: only the ASCII letters A-Z change. *)
Fixpoint lower (s : bytes) : bytes :=
  match s with
  | EmptyString => EmptyString
  | String c rest => String (lower_byte c) (lower rest)
  end.

(** [str(n).encode("utf-8")] for a length [n]. *)
Definition str_encode (n : nat) : bytes := pretty n.

Definition protobuf_media_type : bytes := "application/x-protobuf".
Definition json_media_type : bytes := "application/json".

(** ** Exceptions and results *)

Inductive exn :=
| HTTPException (status_code : Z) (detail : string)
| KeyError (key : string)
| AttributeError (name : string)
| ZeroDivisionError
| DecodeError          (* [FromString] rejected the bytes *)
| ValueError           (* [json.loads] or the message constructor rejected the body *)
| TypeError (what : string)
| ClientDisconnect.

Inductive result (A : Type) :=
| Ok (a : A)
| Raise (e : exn).
Arguments Ok {A} a.
Arguments Raise {A} e.

(** An exception is a client error when it is an [HTTPException] whose status
    lies in the 4xx range. *)
Definition is_client_error (e : exn) : bool :=
  match e with
  | HTTPException status_code _ => (400 <=? status_code)%Z && (status_code <? 500)%Z
  | _ => false
  end.

(** ** ASGI events and scopes

    An ASGI message is a dictionary; the middleware reads the keys [type],
    [body], [more_body] and [headers] and copies the rest.  A record with one
    optional field per key keeps the difference between subscripting (a
    [KeyError] when the key is absent) and [get] with a default. *)

Definition header : Type := bytes * bytes.

Record Message := mkMessage {
  msg_type : string;
  msg_body : option bytes;
  msg_more_body : option bool;
  msg_status : option Z;
  msg_headers : option (list header)
}.

Record Scope := mkScope {
  scope_type : string;
  scope_method : string;
  scope_path : string;
  scope_headers : list header
}.

Definition http_request (body : bytes) (more_body : bool) : Message :=
  mkMessage "http.request" (Some body) (Some more_body) None None.

Definition http_disconnect : Message :=
  mkMessage "http.disconnect" None None None None.

Definition http_response_start (status : Z) (headers : list header) : Message :=
  mkMessage "http.response.start" None None (Some status) (Some headers).

Definition http_response_body (body : bytes) (more_body : bool) : Message :=
  mkMessage "http.response.body" (Some body) (Some more_body) None None.

(** [{**message, "headers": headers}] *)
Definition with_headers (message : Message) (headers : list header) : Message :=
  mkMessage (msg_type message) (msg_body message) (msg_more_body message)
            (msg_status message) (Some headers).

(** [message[key]] *)
Definition getitem {A} (key : string) (field : option A) : result A :=
  match field with
  | Some a => Ok a
  | None => Raise (KeyError key)
  end.

(** ** Content negotiation (lines 79-82 of the module) *)

(** [dict(pairs)]: later pairs overwrite earlier ones. *)
Definition dict (pairs : list header) : gmap bytes bytes :=
  foldl (λ d kv, <[kv.1 := kv.2]> d) ∅ pairs.

(** Truth value of a list and of a bytes object. *)
Definition nonempty {A} (l : list A) : bool :=
  match l with [] => false | _ :: _ => true end.

Definition truthy (b : bytes) : bool :=
  match b with EmptyString => false | String _ _ => true end.

(** The condition under which [__call__] sets [is_protobuf = True]. *)
Definition is_protobuf_request (scope : Scope) : bool :=
  bool_decide (scope_type scope = "http") && nonempty (scope_headers scope) &&
  match dict (scope_headers scope) !! "content-type" with
  | Some content_type =>
      truthy content_type && bool_decide (content_type = protobuf_media_type)
  | None => false
  end.

(** The two outcomes of the specification's content negotiation gate. *)
Inductive classification := Binary | PassThrough.

Definition classify (scope : Scope) : classification :=
  if is_protobuf_request scope then Binary else PassThrough.

(** ** Header rewrite (lines 55-65 of the module) *)

Definition rewrite_headers (start_headers : list header) (proto_body : bytes)
    : list header :=
  filter (λ kv, lower kv.1 ∉ ["content-type"; "content-length"]) start_headers
  ++ [("content-length", str_encode (String.length proto_body));
      ("content-type", protobuf_media_type)].

(** [scope["headers"]] after line 116. *)
Definition json_scope_headers (headers : list header) : list header :=
  map (λ kv, if bool_decide (kv.1 ≠ "content-type")
             then (kv.1, kv.2) else (kv.1, json_media_type)) headers.

Definition with_scope_headers (scope : Scope) (headers : list header) : Scope :=
  mkScope (scope_type scope) (scope_method scope) (scope_path scope) headers.

(** ** The message codec

    [betterproto] and [json] are external to the module.  A message class
    offers [FromString] and [SerializeToString]; the JSON side is the
    composition the module writes out: [to_json m] stands for
    [json.dumps(m.to_dict(Casing.SNAKE)).encode("utf-8")] and
    [from_json cls body] for [cls( **json.loads(body.decode("utf-8")))].
    [None] means that the call raises. *)

Class Codec := {
  MsgClass : Type;
  Msg : Type;
  FromString : MsgClass -> bytes -> option Msg;
  SerializeToString : Msg -> bytes;
  to_json : Msg -> bytes;
  from_json : MsgClass -> bytes -> option Msg
}.

(** ** The world a request runs in

    [inbound] holds the events the server will still deliver through
    [receive], [outbound] the events handed to the server's [send], oldest
    first.  [start_message] is the attribute [self.start_message] of the
    middleware instance ([None] while it has never been assigned).
    [invocations] is a probe: it counts how often [self.app] was awaited. *)

Record World := mkWorld {
  inbound : list Message;
  outbound : list Message;
  start_message : option Message;
  invocations : nat
}.

Definition M (A : Type) : Type := World -> result A * World.

#[global] Instance M_ret : MRet M := λ A a w, (Ok a, w).

#[global] Instance M_bind : MBind M := λ A B f m w,
  match m w with
  | (Ok a, w') => f a w'
  | (Raise e, w') => (Raise e, w')
  end.

Definition raise {A} (e : exn) : M A := λ w, (Raise e, w).

Definition lift {A} (r : result A) : M A := λ w, (r, w).

(** The server's [receive]: the next pending event, and [http.disconnect]
    once the client has nothing more to deliver. *)
Definition receive : M Message := λ w,
  match inbound w with
  | [] => (Ok http_disconnect, w)
  | message :: rest =>
      (Ok message, mkWorld rest (outbound w) (start_message w) (invocations w))
  end.

(** The server's [send]. *)
Definition send (message : Message) : M unit := λ w,
  (Ok (), mkWorld (inbound w) (outbound w ++ [message]) (start_message w)
                  (invocations w)).

(** [self.start_message = message] and the read of [self.start_message]. *)
Definition set_start_message (message : Message) : M unit := λ w,
  (Ok (), mkWorld (inbound w) (outbound w) (Some message) (invocations w)).

Definition get_start_message : M Message := λ w,
  match start_message w with
  | Some message => (Ok message, w)
  | None => (Raise (AttributeError "start_message"), w)
  end.

(** ** Downstream applications

    An ASGI application is a coroutine that awaits [receive()] and
    [send(message)], returns or raises. *)

Inductive Coro :=
| Return
| AwaitReceive (k : Message -> Coro)
| AwaitSend (message : Message) (k : Coro)
| RaiseExn (e : exn).

Definition ASGIApp : Type := Scope -> Coro.

(** Running a coroutine with the two callables it was given. *)
Fixpoint drive (receive : M Message) (send : Message -> M unit) (c : Coro)
    : M unit :=
  match c with
  | Return => mret ()
  | AwaitReceive k => message ← receive; drive receive send (k message)
  | AwaitSend message k => send message;; drive receive send k
  | RaiseExn e => raise e
  end.

(** [await app(scope, receive, send)] *)
Definition await_app (app : ASGIApp) (scope : Scope)
    (receive : M Message) (send : Message -> M unit) : M unit := λ w,
  drive receive send (app scope)
        (mkWorld (inbound w) (outbound w) (start_message w) (S (invocations w))).

(** ** The middleware *)

Section Middleware.
Context `{Codec}.

(** *** Route signatures

    A type hint either is a message class (it has [FromString]) or is not. *)
Inductive hint :=
| ProtoClass (cls : MsgClass)
| PlainType.

(** [get_type_hints(route.endpoint)]: the parameters in order, and the
    entry for [return] when the endpoint declares one. *)
Record Endpoint := mkEndpoint {
  param_hints : list (string * hint);
  return_hint : option hint
}.

Inductive Route :=
| APIRoute (path : string) (endpoint : Endpoint)
| BaseRoute (path : string).

(** The [for ... else] over [app.routes]. *)
Fixpoint find_endpoint (routes : list Route) (path : string) : result Endpoint :=
  match routes with
  | [] => Raise (HTTPException 404 "Endpoint not found")
  | APIRoute route_path endpoint :: rest =>
      if bool_decide (route_path = path) then Ok endpoint
      else find_endpoint rest path
  | BaseRoute _ :: rest => find_endpoint rest path
  end.

(** [next((hint for hint in type_hints.values() if hasattr(hint, "FromString")), None)] *)
Fixpoint first_proto_class (hints : list (string * hint)) : option MsgClass :=
  match hints with
  | [] => None
  | (_, ProtoClass cls) :: _ => Some cls
  | (_, PlainType) :: rest => first_proto_class rest
  end.

Definition signature_error : exn :=
  HTTPException 400 "Protobuf message type not found in endpoint signature".

(** *** [new_receive] (lines 33-40) *)

Definition new_receive (is_protobuf : bool) (json_body : bytes) : M Message :=
  if negb is_protobuf then receive
  else mret (mkMessage "http.request" (Some json_body) (Some false) None None).

(** *** [new_send] (lines 42-77) *)

(** Lines 50-52: JSON text to message to wire bytes. *)
Definition transcode_response (return_object : option hint) (json_body : bytes)
    : result bytes :=
  match return_object with
  | Some (ProtoClass cls) =>
      match from_json cls json_body with
      | Some proto_response => Ok (SerializeToString proto_response)
      | None => Raise ValueError
      end
  | Some PlainType => Raise (AttributeError "SerializeToString")
  | None => Raise (TypeError "NoneType is not callable")
  end.

Definition new_send (is_protobuf : bool) (return_object : option hint)
    (message : Message) : M unit :=
  if is_protobuf then
    if bool_decide (msg_type message = "http.response.start") then
      set_start_message message
    else if bool_decide (msg_type message = "http.response.body") then
      json_body ← lift (getitem "body" (msg_body message));
      proto_body ← lift (transcode_response return_object json_body);
      start ← get_start_message;
      start_headers ← lift (getitem "headers" (msg_headers start));
      let headers := rewrite_headers start_headers proto_body in
      send (with_headers start headers);;
      send (mkMessage "http.response.body" (Some proto_body) (Some false) None None)
    else send message
  else send message.

(** *** [__call__] (lines 26-121) *)

(** The loop of lines 85-90, run on the events still pending. *)
Fixpoint read_body (body : bytes) (pending : list Message) : bytes * list Message :=
  match pending with
  | [] => (body +:+ default EmptyString (msg_body http_disconnect), [])
  | message :: rest =>
      let body := body +:+ default EmptyString (msg_body message) in
      if default false (msg_more_body message) then read_body body rest
      else (body, rest)
  end.

Definition drain_from (body : bytes) : M bytes := λ w,
  let '(body, rest) := read_body body (inbound w) in
  (Ok body, mkWorld rest (outbound w) (start_message w) (invocations w)).

Definition drain : M bytes := drain_from EmptyString.

Definition __call__ (routes : list Route) (app : ASGIApp) (scope : Scope) : M unit :=
  if is_protobuf_request scope then
    body ← drain;
    route_func ← lift (find_endpoint routes (scope_path scope));
    return_object ← match return_hint route_func with
                    | Some h => mret h
                    | None => raise signature_error
                    end;
    input_protobuf_class ← match first_proto_class (param_hints route_func) with
                           | Some cls => mret cls
                           | None => raise signature_error
                           end;
    proto_object ← match FromString input_protobuf_class body with
                   | Some m => mret m
                   | None => raise DecodeError
                   end;
    let json_body := to_json proto_object in
    let scope := with_scope_headers scope (json_scope_headers (scope_headers scope)) in
    await_app app scope (new_receive true json_body)
              (new_send true (Some return_object))
  else
    await_app app scope (new_receive false EmptyString) (new_send false None).

End Middleware.

(** ** The [/classroom] endpoint (lines 124-134)

    Python floats stay abstract: the handler needs the builtin [sum] over the
    grades and the division of a float by a non-zero [int]. *)

Class PyFloat := {
  pyfloat : Type;
  builtin_sum : list pyfloat -> pyfloat;
  true_div : pyfloat -> nat -> pyfloat
}.

Section School.
Context `{PyFloat}.

(** The messages of [betterproto_pb.school], with the fields the client
    fills in. *)
Record Student := mkStudent {
  name : string;
  avg_grade : pyfloat;
  dob : Z                     (* seconds since the epoch *)
}.

Record Classroom := mkClassroom {
  profile : string;
  students : list Student
}.

Record ClassStats := mkClassStats {
  numstudents : nat;
  grade : pyfloat
}.

(** [total / count]: the division raises when [count] is zero. *)
Definition truediv (total : pyfloat) (count : nat) : result pyfloat :=
  match count with
  | O => Raise ZeroDivisionError
  | S _ => Ok (true_div total count)
  end.

Definition summarize_classroom (classroom : Classroom) : result ClassStats :=
  let numstudents := length (students classroom) in
  match truediv (builtin_sum (map avg_grade (students classroom)))
                (length (students classroom)) with
  | Ok grade => Ok (mkClassStats numstudents grade)
  | Raise e => Raise e
  end.

Inductive school_class := ClassroomCls | ClassStatsCls.

Inductive school_msg :=
| ClassroomMsg (classroom : Classroom)
| ClassStatsMsg (stats : ClassStats).

(** The generated message classes of [betterproto_pb.school] with their
    codec, and the two error bodies of the web framework. *)
Class SchoolWire := {
  wire_FromString : school_class -> bytes -> option school_msg;
  wire_SerializeToString : school_msg -> bytes;
  wire_to_json : school_msg -> bytes;
  wire_from_json : school_class -> bytes -> option school_msg;
  not_found_body : bytes;
  unprocessable_body : bytes
}.

Context `{!SchoolWire}.

#[local] Instance school_codec : Codec := {|
  MsgClass := school_class;
  Msg := school_msg;
  FromString := wire_FromString;
  SerializeToString := wire_SerializeToString;
  to_json := wire_to_json;
  from_json := wire_from_json
|}.

(** [app.routes]: the documentation routes every [FastAPI()] object carries
    are plain routes; [summarize_classroom] is the one [APIRoute]. *)
Definition classroom_endpoint : Endpoint :=
  mkEndpoint [("classroom", ProtoClass ClassroomCls)]
             (Some (ProtoClass ClassStatsCls)).

Definition routes : list Route :=
  [ BaseRoute "/openapi.json"; BaseRoute "/docs";
    BaseRoute "/docs/oauth2-redirect"; BaseRoute "/redoc";
    APIRoute "/classroom" classroom_endpoint ].

(** *** The framework below the middleware

    What FastAPI does with a request for the registered endpoint, as far as
    the properties below need it: read the body to its end, parse it as the
    declared parameter type, call the handler, answer with one JSON body. *)

Definition json_response (status : Z) (body : bytes) : Coro :=
  AwaitSend (http_response_start status
               [("content-length", str_encode (String.length body));
                ("content-type", json_media_type)])
    (AwaitSend (http_response_body body false) Return).

(** The body reader: at most [fuel] chunks. *)
Fixpoint request_body (fuel : nat) (body : bytes) (k : bytes -> Coro) : Coro :=
  match fuel with
  | O => RaiseExn ClientDisconnect
  | S fuel =>
      AwaitReceive (λ message,
        if bool_decide (msg_type message = "http.request") then
          let body := body +:+ default EmptyString (msg_body message) in
          if default false (msg_more_body message)
          then request_body fuel body k
          else k body
        else RaiseExn ClientDisconnect)
  end.

(** The first [content-type] header decides whether the body is read as JSON. *)
Definition declares_json (headers : list header) : bool :=
  match list_find (λ kv, kv.1 = "content-type") headers with
  | Some (_, kv) => bool_decide (kv.2 = json_media_type)
  | None => true
  end.

Definition classroom_app (fuel : nat) : ASGIApp := λ scope,
  if bool_decide (scope_path scope = "/classroom")
     && bool_decide (scope_method scope = "POST") then
    request_body fuel EmptyString (λ body,
      if declares_json (scope_headers scope) then
        match wire_from_json ClassroomCls body with
        | Some (ClassroomMsg classroom) =>
            match summarize_classroom classroom with
            | Ok stats => json_response 200 (wire_to_json (ClassStatsMsg stats))
            | Raise e => RaiseExn e
            end
        | _ => json_response 422 unprocessable_body
        end
      else json_response 422 unprocessable_body)
  else json_response 404 not_found_body.

End School.

#[global] Existing Instance school_codec.

(** ** Responses as event lists *)

(** A downstream application that only emits the given events. *)
Definition emit (events : list Message) : Coro := foldr AwaitSend Return events.

(** The outbound trace from a given point on. *)
Definition sent_since (before after : World) : list Message :=
  drop (length (outbound before)) (outbound after).

(** The two events of a translated response (lines 68-75). *)
Definition framed (start : Message) (captured : list header) (proto_body : bytes)
    : list Message :=
  [ with_headers start (rewrite_headers captured proto_body);
    http_response_body proto_body false ].

(** ** The response transcoder as the specification words it

    Section 4.4: capture the header announcement, buffer the body chunks in
    arrival order until more-to-come is false, then translate the whole
    body and emit the header announcement followed by one body chunk. *)

Section SpecWords.
Context `{Codec}.

Definition spec_buffered_response (cls : MsgClass) (start : Message)
    (captured : list header) (chunks : list bytes) : option (list Message) :=
  match from_json cls (String.concat EmptyString chunks) with
  | Some m => Some (framed start captured (SerializeToString m))
  | None => None
  end.

(** The body chunks of a response as events: all but the last announce more. *)
Fixpoint body_events (chunks : list bytes) : list Message :=
  match chunks with
  | [] => []
  | [chunk] => [http_response_body chunk false]
  | chunk :: rest => http_response_body chunk true :: body_events rest
  end.

End SpecWords.

(** The header ordering the specification asks of a forwarded response:
    one header announcement, then one final body chunk with the payload. *)
Definition well_framed (trace : list Message) (payload : bytes) : Prop :=
  ∃ announcement,
    trace = [announcement; http_response_body payload false]
    ∧ msg_type announcement = "http.response.start".

Definition is_announcement (message : Message) : Prop :=
  msg_type message = "http.response.start".

#[global] Instance is_announcement_dec message : Decision (is_announcement message).
Proof. unfold is_announcement. apply _. Defined.

(** Section 4.2 as the claim words it: Binary when some header named
    content-type carries the binary media type, compared without regard to
    letter case. *)
Definition spec_classify (scope : Scope) : classification :=
  if existsb (λ kv, bool_decide (lower kv.1 = "content-type")
                    && bool_decide (lower kv.2 = lower protobuf_media_type))
             (scope_headers scope)
  then Binary else PassThrough.

(** The value of the last header with the given name. *)
Definition last_value (key : bytes) (headers : list header) : option bytes :=
  snd <$> last (filter (λ kv, kv.1 = key) headers).

(** Header names are compared without regard to letter case. *)
Definition same_name (a b : bytes) : Prop := lower a = lower b.

#[global] Instance same_name_dec a b : Decision (same_name a b).
Proof. unfold same_name. apply _. Defined.

Definition carries (body : bytes) (message : Message) : bool :=
  bool_decide (msg_body message = Some body).

(** The messages returned by [n] successive pulls. *)
Fixpoint pulls (n : nat) (source : M Message) (w : World) : list Message :=
  match n with
  | O => []
  | S n =>
      match source w with
      | (Ok message, w') => message :: pulls n source w'
      | (Raise _, _) => []
      end
  end.

(** Section 4.3 as the claim words it: from the world it is installed in, a
    single-shot source yields the body exactly once, however often it is
    pulled. *)
Definition yields_exactly_once (source : M Message) (body : bytes) (w : World)
    : Prop :=
  ∀ n, (1 ≤ n)%nat →
    length (filter (λ m, carries body m = true) (pulls n source w)) = 1%nat.

(** The request body split into chunk events. *)
Fixpoint request_chunks (chunk : bytes) (more : list bytes) : list Message :=
  match more with
  | [] => [http_request chunk false]
  | next :: more => http_request chunk true :: request_chunks next more
  end.

(** ** Two requests in flight on one middleware instance

    Each request runs its own call of [__call__], so it has its own [send]
    and its own closure variables; [self] is the one instance the
    application was wrapped in.  A schedule lists, in the order the event
    loop runs them, which task calls [new_send] with which message. *)

Inductive task := TaskA | TaskB.

#[global] Instance task_eq_dec : EqDecision task.
Proof. solve_decision. Defined.

Record Tasks := mkTasks {
  shared_start_message : option Message;
  sent_a : list Message;
  sent_b : list Message
}.

Section Interleaving.
Context `{Codec}.

Definition task_send (return_object : task -> option hint) (who : task)
    (message : Message) (s : Tasks) : Tasks :=
  let mine := match who with TaskA => sent_a s | TaskB => sent_b s end in
  let w := (new_send true (return_object who) message
              (mkWorld [] mine (shared_start_message s) 0)).2 in
  match who with
  | TaskA => mkTasks (start_message w) (outbound w) (sent_b s)
  | TaskB => mkTasks (start_message w) (sent_a s) (outbound w)
  end.

Definition interleave (return_object : task -> option hint)
    (schedule : list (task * Message)) : Tasks :=
  foldl (λ s ev, task_send return_object ev.1 ev.2 s) (mkTasks None [] []) schedule.

(** What a task sends when the other task's events are taken out. *)
Definition alone (return_object : task -> option hint) (who : task)
    (schedule : list (task * Message)) : Tasks :=
  interleave return_object (filter (λ ev, ev.1 = who) schedule).

Definition isolated (return_object : task -> option hint)
    (schedule : list (task * Message)) : Prop :=
  sent_a (interleave return_object schedule)
    = sent_a (alone return_object TaskA schedule)
  ∧ sent_b (interleave return_object schedule)
    = sent_b (alone return_object TaskB schedule).

End Interleaving.

(** ** A runnable instance

    IEEE binary64 for the floats, with [sum] adding from the left, and
    S-expressions standing in for both wire formats; the binary one is told
    apart by a prefix. *)

#[global] Instance binary64 : PyFloat := {|
  pyfloat := float;
  builtin_sum := foldl PrimFloat.add 0%float;
  true_div := λ total count,
    PrimFloat.div total (PrimFloat.of_uint63 (Uint63.of_Z (Z.of_nat count)))
|}.

#[global] Instance Serialize_float : Serialize float := λ x,
  match Prim2SF x with
  | S754_zero s => [Atom "zero"; to_sexp s]
  | S754_infinity s => [Atom "inf"; to_sexp s]
  | S754_nan => Atom "nan"
  | S754_finite s m e => [Atom "fin"; to_sexp s; to_sexp (Z.pos m); to_sexp e]
  end%sexp.

#[global] Instance Deserialize_float : Deserialize float :=
  Deser.match_con "float" [("nan", SF2Prim S754_nan)]
    [("zero", Deser.con1_ (λ s, SF2Prim (S754_zero s)));
     ("inf", Deser.con1_ (λ s, SF2Prim (S754_infinity s)));
     ("fin", Deser.con3_ (λ s m e, SF2Prim (S754_finite s (Z.to_pos m) e)))].

#[global] Instance Serialize_Student : Serialize Student := λ s,
  [Atom "student"; to_sexp (name s); to_sexp (avg_grade s); to_sexp (dob s)]%sexp.

#[global] Instance Deserialize_Student : Deserialize Student :=
  Deser.match_con "student" [] [("student", Deser.con3_ mkStudent)].

#[global] Instance Serialize_Classroom : Serialize Classroom := λ c,
  [Atom "classroom"; to_sexp (profile c); to_sexp (students c)]%sexp.

#[global] Instance Deserialize_Classroom : Deserialize Classroom :=
  Deser.match_con "classroom" [] [("classroom", Deser.con2_ mkClassroom)].

#[global] Instance Serialize_ClassStats : Serialize ClassStats := λ s,
  [Atom "stats"; to_sexp (numstudents s); to_sexp (grade s)]%sexp.

#[global] Instance Deserialize_ClassStats : Deserialize ClassStats :=
  Deser.match_con "stats" [] [("stats", Deser.con2_ mkClassStats)].

Definition demo_text (m : school_msg) : bytes :=
  match m with
  | ClassroomMsg c => to_string c
  | ClassStatsMsg s => to_string s
  end.

Definition demo_parse (cls : school_class) (text : bytes) : option school_msg :=
  match cls with
  | ClassroomCls =>
      match from_string text with inr c => Some (ClassroomMsg c) | inl _ => None end
  | ClassStatsCls =>
      match from_string text with inr s => Some (ClassStatsMsg s) | inl _ => None end
  end.

Definition demo_magic : bytes := "PB:".

Definition strip_magic (wire : bytes) : option bytes :=
  if String.prefix demo_magic wire
  then Some (String.substring 3 (String.length wire - 3) wire)
  else None.

#[global] Instance demo_wire : SchoolWire := {|
  wire_FromString := λ cls wire, strip_magic wire ≫= demo_parse cls;
  wire_SerializeToString := λ m, demo_magic +:+ demo_text m;
  wire_to_json := demo_text;
  wire_from_json := demo_parse;
  not_found_body := "Not Found";
  unprocessable_body := "Unprocessable Entity"
|}.

(** The classroom the client of the repository posts. *)
Definition john : Student := mkStudent "John" 95.5%float 632361600.
#[warnings="-inexact-float"]
Definition jane : Student := mkStudent "Jane" 92.3%float 793238400.
Definition jim : Student := mkStudent "Jim" 88.0%float 700185600.
Definition math_class : Classroom := mkClassroom "Math" [john; jane; jim].

Definition protobuf_post (path : string) : Scope :=
  mkScope "http" "POST" path
    [("host", "127.0.0.1:8000"); ("content-type", protobuf_media_type)].

Definition connection (pending : list Message) : World := mkWorld pending [] None 0.

(** Its binary encoding, cut in two chunks. *)
Definition math_wire : bytes := wire_SerializeToString (ClassroomMsg math_class).
Definition math_wire_head : bytes := String.substring 0 40 math_wire.
Definition math_wire_tail : bytes :=
  String.substring 40 (String.length math_wire - 40) math_wire.

Definition math_json : bytes := wire_to_json (ClassroomMsg math_class).

Definition json_post (path : string) : Scope :=
  mkScope "http" "POST" path
    [("host", "127.0.0.1:8000"); ("content-type", json_media_type)].

(** What the handler answers for that classroom, and its JSON text cut in
    two pieces. *)
Definition math_stats : ClassStats :=
  mkClassStats 3
    (true_div (builtin_sum [avg_grade john; avg_grade jane; avg_grade jim]) 3).

Definition stats_json : bytes := wire_to_json (ClassStatsMsg math_stats).
Definition stats_json_head : bytes := String.substring 0 10 stats_json.
Definition stats_json_tail : bytes :=
  String.substring 10 (String.length stats_json - 10) stats_json.

Definition json_start (status : Z) (request_id : bytes) : Message :=
  http_response_start status
    [("x-request-id", request_id); ("content-type", json_media_type)].

Definition stats_class : option hint := Some (ProtoClass ClassStatsCls).

(** A request whose header announcement has been captured. *)
Definition captured_w : World := mkWorld [] [] (Some (json_start 200 "a")) 1.

(** A header announcement with mixed-case names, and an instance that still
    holds the announcement of an earlier request. *)
Definition mixed_case_start : Message :=
  http_response_start 200
    [ ("X-Request-Id", "a"); ("Content-Type", json_media_type);
      ("content-length", "42"); ("cache-control", "no-store") ].

Definition stale_w : World := mkWorld [] [] (Some (json_start 201 "b")) 0.

(** Two requests to the endpoint whose responses overlap: both header
    announcements are sent before either body. *)
Definition stats_return : task -> option hint := λ _, stats_class.

Definition overlapping : list (task * Message) :=
  [ (TaskA, json_start 200 "a"); (TaskB, json_start 201 "b");
    (TaskA, http_response_body stats_json false);
    (TaskB, http_response_body stats_json false) ].

(** ** Further vocabulary for the properties *)

(** The world after lines 85-90 ran: the request body has been pulled. *)
Definition drained (w : World) : World :=
  mkWorld (read_body EmptyString (inbound w)).2 (outbound w) (start_message w)
          (invocations w).

(** The bytes of an event as the loop of lines 87-90 reads them, and whether
    the loop goes on after it. *)
Definition body_of (message : Message) : bytes :=
  default EmptyString (msg_body message).

Definition announces_more (message : Message) : Prop :=
  default false (msg_more_body message) = true.

#[global] Instance announces_more_dec message : Decision (announces_more message).
Proof. unfold announces_more. apply _. Defined.

(** [self.start_message] holds nothing or a header announcement. *)
Definition start_ok (w : World) : Prop :=
  ∀ start, start_message w = Some start → msg_type start = "http.response.start".

(** The shape of what [new_send] hands to the server on the binary path:
    events of other types as they came, and pairs of a rewritten header
    announcement and a final body chunk. *)
Inductive binary_trace : list Message → Prop :=
| binary_trace_nil : binary_trace []
| binary_trace_other (message : Message) (rest : list Message) :
    msg_type message ≠ "http.response.start" →
    msg_type message ≠ "http.response.body" →
    binary_trace rest →
    binary_trace (message :: rest)
| binary_trace_pair (start : Message) (captured : list header) (proto_body : bytes)
    (rest : list Message) :
    msg_type start = "http.response.start" →
    binary_trace rest →
    binary_trace (framed start captured proto_body ++ rest).

(** Requests served one after the other: each task sends its header
    announcement and its body before the next task sends anything. *)
Definition serial (blocks : list (task * Message * Message)) : list (task * Message) :=
  flat_map (λ b, [(b.1.1, b.1.2); (b.1.1, b.2)]) blocks.

(** What a task's body event makes [new_send] forward when the task's own
    header announcement is the one held by the instance. *)
Definition block_reply `{Codec} (return_object : task → option hint)
    (b : task * Message * Message) : list Message :=
  outbound (new_send true (return_object b.1.1) b.2
              (mkWorld [] [] (Some b.1.2) 0)).2.

(** One step of a schedule. *)
Definition step_of `{Codec} (return_object : task → option hint) (s : Tasks)
    (ev : task * Message) : Tasks :=
  task_send return_object ev.1 ev.2 s.

(** ** [fastapi_google_string_server.py]

    The endpoint takes the raw request and answers with a raw response; the
    whole body of the handler sits in a [try] whose [except Exception] raises
    an [HTTPException] with status 400.  [exn_str] stands for [str(e)]. *)

Record Response := mkResponse {
  status_code : Z;
  content : bytes
}.

Module GoogleStringServer.
Section Handler.
Context `{PyFloat} `{!SchoolWire}.
Variable exn_str : exn → string.

(** Lines 16-21, the body of the [try]. *)
Definition attempt (request_body : result bytes) : result Response :=
  match request_body with
  | Raise e => Raise e
  | Ok classroom_string =>
      match wire_FromString ClassroomCls classroom_string with
      | Some (ClassroomMsg classroom) =>
          match truediv (builtin_sum (map avg_grade (students classroom)))
                        (length (students classroom)) with
          | Ok avg_grade =>
              let classroom_stats_object :=
                mkClassStats (length (students classroom)) avg_grade in
              let classroom_stats_string :=
                wire_SerializeToString (ClassStatsMsg classroom_stats_object) in
              Ok (mkResponse 200 classroom_stats_string)
          | Raise e => Raise e
          end
      | _ => Raise DecodeError
      end
  end.

Definition summarize_classroom (request_body : result bytes) : result Response :=
  match attempt request_body with
  | Ok response => Ok response
  | Raise e => Raise (HTTPException 400 ("Exception: " +:+ exn_str e))
  end.

End Handler.
End GoogleStringServer.

(** A rendering of exceptions for the runnable instance. *)
Definition demo_exn_str (e : exn) : string :=
  match e with
  | ZeroDivisionError => "division by zero"
  | DecodeError => "Error parsing message"
  | ClientDisconnect => EmptyString
  | HTTPException _ detail => detail
  | KeyError key => key
  | AttributeError name => name
  | ValueError => "invalid value"
  | TypeError what => what
  end.

Definition empty_class : Classroom := mkClassroom "Art" [].
Definition empty_wire : bytes := wire_SerializeToString (ClassroomMsg empty_class).

(** * Properties *)

(** ** Bytes *)

Lemma append_assoc (a b c : bytes) : (a +:+ b) +:+ c = a +:+ (b +:+ c).
Proof.
  induction a as [|x a IH]; [done|].
  change (String x ((a +:+ b) +:+ c) = String x (a +:+ (b +:+ c))). by rewrite IH.
Qed.

Example lower_header_name : lower "Content-Type" = "content-type".
Proof. reflexivity. Qed.

Example lower_leaves_the_rest : lower "x-Trace[7]" = "x-trace[7]".
Proof. reflexivity. Qed.

Example str_encode_length : str_encode (String.length "PB:(stats 3)") = "12".
Proof. reflexivity. Qed.

(** ** Content negotiation *)

Example dict_keeps_the_last :
  dict [("content-type", "text/plain"); ("accept", "*/*");
        ("content-type", json_media_type)] !! "content-type"
  = Some json_media_type.
Proof. reflexivity. Qed.

Example protobuf_post_is_binary : classify (protobuf_post "/classroom") = Binary.
Proof. reflexivity. Qed.

Example json_post_passes_through : classify (json_post "/classroom") = PassThrough.
Proof. reflexivity. Qed.

Example no_headers_pass_through :
  classify (mkScope "http" "GET" "/docs" []) = PassThrough.
Proof. reflexivity. Qed.

Example websocket_passes_through :
  classify (mkScope "websocket" "GET" "/classroom"
              [("content-type", protobuf_media_type)]) = PassThrough.
Proof. reflexivity. Qed.

Lemma dict_snoc (headers : list header) (kv : header) :
  dict (headers ++ [kv]) = <[kv.1 := kv.2]> (dict headers).
Proof. unfold dict. by rewrite foldl_app. Qed.

(** [dict(headers).get(key)] is the value of the last header named [key]. *)
Lemma dict_lookup (headers : list header) (key : bytes) :
  dict headers !! key = last_value key headers.
Proof.
  induction headers as [|[k v] headers IH] using rev_ind; [done|].
  rewrite dict_snoc. unfold last_value in *. rewrite filter_app. cbn [fst snd].
  destruct (decide (k = key)) as [->|Hne].
  - rewrite lookup_insert_eq. rewrite filter_cons_True by done.
    rewrite filter_nil. by rewrite last_snoc.
  - rewrite lookup_insert_ne by done. rewrite filter_cons_False by done.
    rewrite filter_nil, app_nil_r. exact IH.
Qed.

Lemma last_value_nonempty (key : bytes) (headers : list header) (v : bytes) :
  last_value key headers = Some v → nonempty headers = true.
Proof. by destruct headers. Qed.

Lemma is_protobuf_request_spec (scope : Scope) :
  is_protobuf_request scope = true ↔
  scope_type scope = "http" ∧
  last_value "content-type" (scope_headers scope) = Some protobuf_media_type.
Proof.
  unfold is_protobuf_request. rewrite dict_lookup. split.
  - intros Hb. apply andb_prop in Hb as [Hb Hct]. apply andb_prop in Hb as [Ht _].
    apply bool_decide_eq_true in Ht. split; [done|].
    destruct (last_value _ _) as [ct|]; [|done].
    apply andb_prop in Hct as [_ Hct]. apply bool_decide_eq_true in Hct. by subst.
  - intros [Ht Hct]. rewrite Hct, (last_value_nonempty _ _ _ Hct).
    rewrite bool_decide_eq_true_2 by done. done.
Qed.

(** C7 (as amended): a request is Binary exactly when its scope is an http
    scope and the last header named content-type (the one [dict] keeps)
    carries the binary media type byte for byte; every other request is
    PassThrough. *)
Theorem C7_binary_iff_last_content_type_exact (scope : Scope) :
  (classify scope = Binary ↔
     scope_type scope = "http" ∧
     last_value "content-type" (scope_headers scope) = Some protobuf_media_type)
  ∧ (classify scope = PassThrough ↔
     ¬ (scope_type scope = "http" ∧
        last_value "content-type" (scope_headers scope) = Some protobuf_media_type)).
Proof.
  unfold classify. rewrite <- is_protobuf_request_spec.
  destruct (is_protobuf_request scope); split; split; done.
Qed.

(** C7 (counterexample): a content-type value that matches the binary media
    type up to letter case is Binary in the claim's wording and PassThrough
    in the code. *)
Example C7_counterexample_case_differs :
  let scope := mkScope "http" "POST" "/classroom"
                 [("content-type", "Application/X-Protobuf")] in
  spec_classify scope = Binary ∧ classify scope = PassThrough.
Proof. split; vm_compute; reflexivity. Qed.

Lemma last_value_snoc (key k v : bytes) (headers : list header) :
  last_value key (headers ++ [(k, v)])
  = if decide (k = key) then Some v else last_value key headers.
Proof.
  unfold last_value. rewrite filter_app. case_decide.
  - rewrite filter_cons_True by done. by rewrite filter_nil, last_snoc.
  - rewrite filter_cons_False by done. by rewrite filter_nil, app_nil_r.
Qed.

(** After line 116 the last content-type header, if there is one, carries
    the JSON media type. *)
Lemma last_value_json_scope (headers : list header) :
  last_value "content-type" (json_scope_headers headers)
  = (λ _, json_media_type) <$> last_value "content-type" headers.
Proof.
  induction headers as [|[k v] headers IH] using rev_ind; [done|].
  unfold json_scope_headers in *. rewrite map_app. cbn [map fst snd].
  case_bool_decide as Hk.
  - rewrite !last_value_snoc. by rewrite !decide_False.
  - subst k. rewrite !last_value_snoc.
    by rewrite !decide_True.
Qed.

Lemma json_scope_headers_content_type (headers : list header) (k v : bytes) :
  (k, v) ∈ json_scope_headers headers → k = "content-type" → v = json_media_type.
Proof.
  unfold json_scope_headers. rewrite list_elem_of_fmap.
  intros ([k' v'] & Heq & _) ->. cbn [fst snd] in Heq.
  case_bool_decide as Hk; injection Heq as <- <-; [done|reflexivity].
Qed.

Lemma json_scope_headers_others (headers : list header) :
  filter (λ kv, kv.1 ≠ "content-type") (json_scope_headers headers)
  = filter (λ kv, kv.1 ≠ "content-type") headers.
Proof.
  unfold json_scope_headers.
  induction headers as [|[k v] headers IH]; [done|]. cbn [map fst snd].
  case_bool_decide as Hk.
  - rewrite !filter_cons_True by done. f_equal. exact IH.
  - rewrite !filter_cons_False by (cbn; intros Hn; by apply Hn). exact IH.
Qed.

(** ** The request side *)

Section RequestSide.
Context `{Codec}.

(** [drain_from] is the loop of lines 87-90: one [receive], then either
    the loop again or the body read so far. *)
Lemma drain_from_unfold (body : bytes) (w : World) :
  drain_from body w =
  (message ← receive;
   let body := body +:+ default EmptyString (msg_body message) in
   if default false (msg_more_body message) then drain_from body else mret body) w.
Proof.
  unfold drain_from, mbind, M_bind, receive. destruct w as [pending out st n].
  cbn [inbound outbound start_message invocations].
  destruct pending as [|message rest]; cbn [read_body]; [done|].
  by destruct (default false (msg_more_body message)).
Qed.

(** However the body was split into chunks, the loop returns their
    concatenation and leaves the later events pending. *)
Lemma read_body_chunks (body chunk : bytes) (more : list bytes) (later : list Message) :
  read_body body (request_chunks chunk more ++ later)
  = (body +:+ String.concat EmptyString (chunk :: more), later).
Proof.
  revert body chunk. induction more as [|next more IH]; intros body chunk.
  - done.
  - cbn [request_chunks app read_body http_request msg_body msg_more_body default].
    rewrite IH. f_equal. cbn [String.concat].
    destruct more; by rewrite append_assoc.
Qed.

(** The pass-through closures are the server's callables. *)
Lemma new_receive_pass_through : new_receive false EmptyString = receive.
Proof. reflexivity. Qed.

Lemma new_send_pass_through : new_send false None = send.
Proof. reflexivity. Qed.

Lemma call_pass_through (routes : list Route) (app : ASGIApp) (scope : Scope)
    (w : World) :
  is_protobuf_request scope = false →
  __call__ routes app scope w = await_app app scope receive send w.
Proof. intros Hpass. unfold __call__. by rewrite Hpass. Qed.

(** C3: when the content-type the middleware reads is not the binary media
    type, running the application behind the middleware is running the bare
    application on the same scope against the server's own [receive] and
    [send]: same result, same events consumed and emitted, and the
    middleware's own state untouched. *)
Theorem C3_pass_through_is_bare_app (routes : list Route) (app : ASGIApp)
    (scope : Scope) (w : World) :
  dict (scope_headers scope) !! "content-type" ≠ Some protobuf_media_type →
  __call__ routes app scope w = await_app app scope receive send w.
Proof.
  intros Hct. apply call_pass_through.
  apply not_true_is_false. rewrite is_protobuf_request_spec, <- dict_lookup.
  by intros [_ ?].
Qed.

(** A binary request whose route resolves and whose body decodes reaches the
    application with the JSON scope and the replacement callables. *)
Lemma call_binary (routes : list Route) (app : ASGIApp) (scope : Scope) (w : World)
    (chunk : bytes) (more : list bytes) (later : list Message)
    (endpoint : Endpoint) (return_object : hint) (cls : MsgClass) (m : Msg) :
  is_protobuf_request scope = true →
  inbound w = request_chunks chunk more ++ later →
  find_endpoint routes (scope_path scope) = Ok endpoint →
  return_hint endpoint = Some return_object →
  first_proto_class (param_hints endpoint) = Some cls →
  FromString cls (String.concat EmptyString (chunk :: more)) = Some m →
  __call__ routes app scope w
  = await_app app
      (with_scope_headers scope (json_scope_headers (scope_headers scope)))
      (new_receive true (to_json m)) (new_send true (Some return_object))
      (mkWorld later (outbound w) (start_message w) (invocations w)).
Proof.
  intros Hbin Hin Hroute Hret Hcls Hm. unfold __call__. rewrite Hbin.
  unfold mbind, M_bind, drain, drain_from, lift.
  rewrite Hin, read_body_chunks. cbn [String.append].
  rewrite Hroute, Hret. cbn [mret M_ret]. rewrite Hcls. cbn [mret M_ret].
  change (EmptyString +:+ ?x) with x. by rewrite Hm.
Qed.

Lemma pulls_new_receive (json_body : bytes) (n : nat) (w : World) :
  pulls n (new_receive true json_body) w = replicate n (http_request json_body false).
Proof.
  induction n as [|n IH]; [done|]. cbn [replicate]. rewrite <- IH. reflexivity.
Qed.

(** C8 (as amended): for a binary request whose route resolves and whose
    body decodes, in however many chunks the body arrived, the application
    is run with every content-type header set to the JSON media type and
    the other headers unchanged, and with a chunk source that answers every
    pull (not only the first) with the whole JSON body and more-to-come =
    false; a reader that pulls until more-to-come is false therefore gets
    exactly the JSON body, after one pull. *)
Theorem C8_json_body_on_every_pull (routes : list Route) (app : ASGIApp)
    (scope : Scope) (w : World) (chunk : bytes) (more : list bytes)
    (later : list Message) (endpoint : Endpoint) (return_object : hint)
    (cls : MsgClass) (m : Msg) :
  is_protobuf_request scope = true →
  inbound w = request_chunks chunk more ++ later →
  find_endpoint routes (scope_path scope) = Ok endpoint →
  return_hint endpoint = Some return_object →
  first_proto_class (param_hints endpoint) = Some cls →
  FromString cls (String.concat EmptyString (chunk :: more)) = Some m →
  let json_scope :=
    with_scope_headers scope (json_scope_headers (scope_headers scope)) in
  let source := new_receive true (to_json m) in
  __call__ routes app scope w
    = await_app app json_scope source (new_send true (Some return_object))
        (mkWorld later (outbound w) (start_message w) (invocations w))
  ∧ dict (scope_headers json_scope) !! "content-type" = Some json_media_type
  ∧ (∀ k v, (k, v) ∈ scope_headers json_scope → k = "content-type" →
            v = json_media_type)
  ∧ filter (λ kv, kv.1 ≠ "content-type") (scope_headers json_scope)
    = filter (λ kv, kv.1 ≠ "content-type") (scope_headers scope)
  ∧ (∀ n w0, pulls n source w0 = replicate n (http_request (to_json m) false))
  ∧ (∀ fuel k tx w0,
       drive source tx (request_body (S fuel) EmptyString k) w0
       = drive source tx (k (to_json m)) w0).
Proof.
  intros Hbin Hin Hroute Hret Hcls Hm json_scope source. split_and!.
  - by eapply call_binary.
  - cbn [json_scope scope_headers with_scope_headers].
    rewrite dict_lookup, last_value_json_scope.
    apply is_protobuf_request_spec in Hbin as [_ ->]. done.
  - apply json_scope_headers_content_type.
  - apply json_scope_headers_others.
  - apply pulls_new_receive.
  - intros fuel k tx w0. reflexivity.
Qed.

(** A body that [FromString] rejects: the exception leaves [__call__] after
    the body was drained; nothing was sent and the application was not
    awaited. *)
Lemma call_decode_error (routes : list Route) (app : ASGIApp) (scope : Scope)
    (w : World) (endpoint : Endpoint) (return_object : hint) (cls : MsgClass) :
  is_protobuf_request scope = true →
  find_endpoint routes (scope_path scope) = Ok endpoint →
  return_hint endpoint = Some return_object →
  first_proto_class (param_hints endpoint) = Some cls →
  FromString cls (read_body EmptyString (inbound w)).1 = None →
  __call__ routes app scope w
  = (Raise DecodeError,
     mkWorld (read_body EmptyString (inbound w)).2 (outbound w) (start_message w)
             (invocations w)).
Proof.
  intros Hbin Hroute Hret Hcls Hm. unfold __call__. rewrite Hbin.
  unfold mbind, M_bind, drain, drain_from, lift.
  destruct (read_body EmptyString (inbound w)) as [body rest]. cbn [fst snd] in *.
  rewrite Hroute, Hret. cbn [mret M_ret]. rewrite Hcls. cbn [mret M_ret].
  by rewrite Hm.
Qed.

(** An unknown path is reported as an [HTTPException] with status 404. *)
Lemma call_unknown_route (routes : list Route) (app : ASGIApp) (scope : Scope)
    (w : World) (e : exn) :
  is_protobuf_request scope = true →
  find_endpoint routes (scope_path scope) = Raise e →
  __call__ routes app scope w
  = (Raise e,
     mkWorld (read_body EmptyString (inbound w)).2 (outbound w) (start_message w)
             (invocations w)).
Proof.
  intros Hbin Hroute. unfold __call__. rewrite Hbin.
  unfold mbind, M_bind, drain, drain_from, lift.
  destruct (read_body EmptyString (inbound w)) as [body rest]. cbn [fst snd].
  by rewrite Hroute.
Qed.

End RequestSide.

(** ** The response side *)

Section ResponseSide.
Context `{Codec}.

Lemma new_send_start (return_object : option hint) (message : Message) (w : World) :
  msg_type message = "http.response.start" →
  new_send true return_object message w
  = (Ok (), mkWorld (inbound w) (outbound w) (Some message) (invocations w)).
Proof. intros Ht. unfold new_send. by rewrite Ht. Qed.

Lemma new_send_body (cls : MsgClass) (message start : Message)
    (captured : list header) (json_body : bytes) (m : Msg) (w : World) :
  msg_type message = "http.response.body" →
  msg_body message = Some json_body →
  from_json cls json_body = Some m →
  start_message w = Some start →
  msg_headers start = Some captured →
  new_send true (Some (ProtoClass cls)) message w
  = (Ok (), mkWorld (inbound w)
              (outbound w ++ framed start captured (SerializeToString m))
              (start_message w) (invocations w)).
Proof.
  intros Ht Hb Hj Hs Hh. unfold new_send. rewrite Ht.
  rewrite bool_decide_eq_false_2, bool_decide_eq_true_2 by done.
  unfold mbind, M_bind, lift, get_start_message, transcode_response, send.
  rewrite Hb. cbn [getitem]. rewrite Hj, Hs, Hh. cbn [getitem].
  cbn [inbound outbound start_message invocations framed].
  rewrite <- app_assoc. by rewrite Hs.
Qed.

(** Whatever [new_send] forwards for a body event was computed from the
    start message held in [self.start_message] at that moment. *)
Lemma new_send_body_inv (return_object : option hint) (message : Message)
    (w w' : World) :
  msg_type message = "http.response.body" →
  new_send true return_object message w = (Ok (), w') →
  ∃ start captured proto_body,
    start_message w = Some start ∧ msg_headers start = Some captured ∧
    transcode_response return_object (default EmptyString (msg_body message))
      = Ok proto_body ∧
    w' = mkWorld (inbound w) (outbound w ++ framed start captured proto_body)
                 (start_message w) (invocations w).
Proof.
  intros Ht. unfold new_send. rewrite Ht.
  rewrite bool_decide_eq_false_2, bool_decide_eq_true_2 by done.
  unfold mbind, M_bind, lift, get_start_message, send.
  destruct (msg_body message) as [json_body|]; cbn [getitem]; [|done].
  destruct (transcode_response return_object json_body) as [proto_body|] eqn:Ht2;
    [|done].
  destruct (start_message w) as [start|] eqn:Hs; [|done].
  destruct (msg_headers start) as [captured|] eqn:Hh; cbn [getitem]; [|done].
  cbn [inbound outbound start_message invocations].
  intros [= <-]. exists start, captured, proto_body.
  rewrite Hs, <- app_assoc. done.
Qed.

(** No body event is held back: when [new_send] returns for one, two
    events have gone out. *)
Lemma new_send_body_forwards_at_once (return_object : option hint)
    (message : Message) (w w' : World) :
  msg_type message = "http.response.body" →
  new_send true return_object message w = (Ok (), w') →
  length (outbound w') = (length (outbound w) + 2)%nat.
Proof.
  intros Ht Hs.
  destruct (new_send_body_inv _ _ _ _ Ht Hs) as (start & captured & body & _ & _ & _ & ->).
  cbn [outbound]. by rewrite length_app.
Qed.

(** A body event whose bytes do not decode: [new_send] raises before it
    sends anything. *)
Lemma new_send_body_undecodable (cls : MsgClass) (message : Message)
    (json_body : bytes) (w : World) :
  msg_type message = "http.response.body" →
  msg_body message = Some json_body →
  from_json cls json_body = None →
  new_send true (Some (ProtoClass cls)) message w = (Raise ValueError, w).
Proof.
  intros Ht Hb Hj. unfold new_send. rewrite Ht.
  rewrite bool_decide_eq_false_2, bool_decide_eq_true_2 by done.
  unfold mbind, M_bind, lift, transcode_response.
  rewrite Hb. cbn [getitem]. by rewrite Hj.
Qed.

Lemma kept_headers (captured : list header) :
  filter (λ kv, lower kv.1 ∉ ["content-type"; "content-length"]) captured
  = filter (λ kv, ¬ same_name kv.1 "content-type"
                  ∧ ¬ same_name kv.1 "content-length") captured.
Proof.
  apply list_filter_iff. intros [k v]. unfold same_name. cbn [fst].
  change (lower "content-type") with "content-type".
  change (lower "content-length") with "content-length".
  rewrite !not_elem_of_cons. split; [intros (?&?&_); done|intros [??]; split_and!; [done..|]].
  apply not_elem_of_nil.
Qed.

Lemma drive_send (rx : M Message) (tx : Message → M unit) (message : Message)
    (k : Coro) (w w' : World) :
  tx message w = (Ok (), w') →
  drive rx tx (AwaitSend message k) w = drive rx tx k w'.
Proof. intros Htx. cbn [drive]. unfold mbind, M_bind. by rewrite Htx. Qed.

(** With a start message captured, a run of body events that each decode on
    their own is forwarded pair by pair. *)
Lemma drive_body_events (cls : MsgClass) (start : Message) (captured : list header)
    (rx : M Message) (chunks : list (bytes * bool)) (msgs : list Msg) :
  msg_headers start = Some captured →
  Forall2 (λ c m, from_json cls c.1 = Some m) chunks msgs →
  ∀ w, start_message w = Some start →
  drive rx (new_send true (Some (ProtoClass cls)))
        (emit (map (λ c, http_response_body c.1 c.2) chunks)) w
  = (Ok (), mkWorld (inbound w)
              (outbound w ++
               concat (map (λ m, framed start captured (SerializeToString m)) msgs))
              (Some start) (invocations w)).
Proof.
  intros Hh Hall. induction Hall as [|[chunk more] m chunks msgs Hm _ IH]; intros w Hs.
  - cbn. rewrite app_nil_r, <- Hs. by destruct w.
  - cbn [map emit foldr fst snd].
    erewrite drive_send by (by eapply new_send_body).
    fold (emit (map (λ c : bytes * bool, http_response_body c.1 c.2) chunks)).
    rewrite IH by done. cbn [inbound outbound invocations concat].
    by rewrite <- app_assoc.
Qed.

(** C2 (as amended): the transcoder keeps no body buffer.  After the header
    announcement was captured, every body-chunk event whose bytes decode on
    their own is translated from the bytes of that event alone and
    forwarded as a header announcement followed by one body chunk with
    more-to-come = false, whatever more-to-come flag the event carried; a
    body emitted as one event is therefore translated from the whole body. *)
Theorem C2_each_chunk_translated_alone (cls : MsgClass) (start : Message)
    (captured : list header) (rx : M Message) (chunks : list (bytes * bool))
    (msgs : list Msg) (w : World) :
  msg_type start = "http.response.start" →
  msg_headers start = Some captured →
  Forall2 (λ c m, from_json cls c.1 = Some m) chunks msgs →
  drive rx (new_send true (Some (ProtoClass cls)))
        (emit (start :: map (λ c, http_response_body c.1 c.2) chunks)) w
  = (Ok (), mkWorld (inbound w)
              (outbound w ++
               concat (map (λ m, framed start captured (SerializeToString m)) msgs))
              (Some start) (invocations w)).
Proof.
  intros Ht Hh Hall. cbn [emit foldr].
  erewrite drive_send by (by apply new_send_start).
  fold (emit (map (λ c : bytes * bool, http_response_body c.1 c.2) chunks)).
  by erewrite drive_body_events.
Qed.

(** C5 (as amended): when the downstream application emits one header
    announcement and then one body-chunk event whose bytes decode as the
    route's output type, the middleware forwards exactly two events: the
    header announcement, once, and after it one body chunk that carries the
    whole binary payload with more-to-come = false. *)
Theorem C5_one_header_then_one_body (cls : MsgClass) (start body_event : Message)
    (captured : list header) (json_body : bytes) (m : Msg) (rx : M Message)
    (w : World) :
  msg_type start = "http.response.start" →
  msg_headers start = Some captured →
  msg_type body_event = "http.response.body" →
  msg_body body_event = Some json_body →
  from_json cls json_body = Some m →
  ∃ w',
    drive rx (new_send true (Some (ProtoClass cls))) (emit [start; body_event]) w
      = (Ok (), w')
    ∧ sent_since w w'
      = [ with_headers start (rewrite_headers captured (SerializeToString m));
          http_response_body (SerializeToString m) false ]
    ∧ well_framed (sent_since w w') (SerializeToString m).
Proof.
  intros Ht Hh Htb Hb Hm. eexists. split.
  - cbn [emit foldr].
    erewrite drive_send by (by apply new_send_start).
    erewrite drive_send by (by eapply new_send_body).
    reflexivity.
  - unfold sent_since. cbn [outbound]. rewrite drop_app_length. split; [done|].
    eexists. split; [reflexivity|]. exact Ht.
Qed.

(** C6: on the binary path, for a response whose header announcement
    carries the header list [captured] and whose body events decode, every
    header announcement the middleware hands to the server keeps the type,
    the status and the other keys of the one the application sent in this
    response (whatever announcement the instance held before), and its
    header list is [captured] without the entries named content-type or
    content-length in any letter case, the others as they were and in their
    order, followed by content-length with the decimal byte length of the
    binary encoding of the decoded message and by content-type with the
    binary media type; the body chunk sent right after it carries exactly
    that binary encoding. *)
Theorem C6_header_rewrite (cls : MsgClass) (start : Message)
    (captured : list header) (rx : M Message) (chunks : list (bytes * bool))
    (msgs : list Msg) (w : World) :
  msg_type start = "http.response.start" →
  msg_headers start = Some captured →
  Forall2 (λ c m, from_json cls c.1 = Some m) chunks msgs →
  ∃ w',
    drive rx (new_send true (Some (ProtoClass cls)))
          (emit (start :: map (λ c, http_response_body c.1 c.2) chunks)) w
      = (Ok (), w')
    ∧ sent_since w w'
      = concat (map (λ m,
          [ mkMessage "http.response.start" (msg_body start) (msg_more_body start)
              (msg_status start)
              (Some (filter (λ kv, ¬ same_name kv.1 "content-type"
                                   ∧ ¬ same_name kv.1 "content-length") captured
                     ++ [("content-length",
                          pretty (String.length (SerializeToString m)));
                         ("content-type", protobuf_media_type)]));
            mkMessage "http.response.body" (Some (SerializeToString m))
              (Some false) None None ]) msgs).
Proof.
  intros Ht Hh Hall. eexists. split.
  - cbn [emit foldr].
    erewrite drive_send by (by apply new_send_start).
    fold (emit (map (λ c : bytes * bool, http_response_body c.1 c.2) chunks)).
    by erewrite drive_body_events.
  - unfold sent_since. cbn [outbound]. rewrite drop_app_length.
    f_equal. apply map_ext. intros m.
    unfold framed, with_headers, rewrite_headers, str_encode, http_response_body.
    by rewrite Ht, kept_headers.
Qed.

End ResponseSide.

(** ** The endpoint behind the middleware *)

Section SchoolProps.
Context `{PyFloat} `{!SchoolWire}.

Lemma routes_classroom : find_endpoint routes "/classroom" = Ok classroom_endpoint.
Proof. reflexivity. Qed.

(** After line 116 the framework reads the body as JSON. *)
Lemma declares_json_after_rewrite (headers : list header) :
  declares_json (json_scope_headers headers) = true.
Proof.
  unfold declares_json, json_scope_headers.
  induction headers as [|[k v] headers IH]; [done|]. cbn [map fst snd list_find].
  case_bool_decide as Hk.
  - rewrite decide_False by done.
    destruct (list_find _ _) as [[i kv]|]; cbn [fmap option_fmap option_map prod_map];
      [exact IH|done].
  - subst k. rewrite decide_True by done. cbn [snd]. by apply bool_decide_eq_true.
Qed.

(** C10: for a classroom without students the handler's division raises
    [ZeroDivisionError]; no stats message is returned. *)
Theorem C10_empty_classroom_divides_by_zero (classroom : Classroom) :
  students classroom = [] →
  summarize_classroom classroom = Raise ZeroDivisionError
  ∧ ∀ stats, summarize_classroom classroom ≠ Ok stats.
Proof.
  intros Hempty. unfold summarize_classroom. rewrite Hempty. cbn. done.
Qed.

(** A binary request whose body decodes to a classroom reaches the handler
    through the framework; what the handler returns or raises is what the
    request ends with. *)
Lemma call_classroom (scope : Scope) (classroom : Classroom) (chunk : bytes)
    (more : list bytes) (later : list Message) (fuel : nat) (w : World) :
  scope_method scope = "POST" →
  scope_path scope = "/classroom" →
  is_protobuf_request scope = true →
  inbound w = request_chunks chunk more ++ later →
  wire_FromString ClassroomCls (String.concat EmptyString (chunk :: more))
    = Some (ClassroomMsg classroom) →
  wire_from_json ClassroomCls (wire_to_json (ClassroomMsg classroom))
    = Some (ClassroomMsg classroom) →
  __call__ routes (classroom_app (S fuel)) scope w
  = drive (new_receive true (wire_to_json (ClassroomMsg classroom)))
      (new_send true (Some (ProtoClass ClassStatsCls)))
      match summarize_classroom classroom with
      | Ok stats => json_response 200 (wire_to_json (ClassStatsMsg stats))
      | Raise e => RaiseExn e
      end
      (mkWorld later (outbound w) (start_message w) (S (invocations w))).
Proof.
  intros Hmethod Hpath Hbin Hin Hwire Hjson.
  erewrite (call_binary routes) by
    first [ exact Hbin | exact Hin | rewrite Hpath; apply routes_classroom
          | reflexivity | exact Hwire ].
  unfold await_app, classroom_app.
  cbn [scope_path scope_method scope_headers with_scope_headers
       inbound outbound start_message invocations].
  rewrite Hmethod, Hpath, declares_json_after_rewrite.
  rewrite !bool_decide_eq_true_2 by done. cbn [andb request_body drive].
  unfold mbind at 1, M_bind at 1. cbn [new_receive negb mret M_ret msg_type].
  rewrite bool_decide_eq_true_2 by done.
  cbn [msg_body msg_more_body default from_option id].
  change (EmptyString +:+ ?x) with x.
  change (@to_json school_codec (ClassroomMsg classroom))
    with (wire_to_json (ClassroomMsg classroom)).
  by rewrite Hjson.
Qed.

(** A binary request whose classroom has no students ends with the handler's
    [ZeroDivisionError]; no response event is sent. *)
Lemma call_empty_classroom (scope : Scope) (subject : string) (chunk : bytes)
    (more : list bytes) (later : list Message) (fuel : nat) (w : World) :
  scope_method scope = "POST" →
  scope_path scope = "/classroom" →
  is_protobuf_request scope = true →
  inbound w = request_chunks chunk more ++ later →
  wire_FromString ClassroomCls (String.concat EmptyString (chunk :: more))
    = Some (ClassroomMsg (mkClassroom subject [])) →
  wire_from_json ClassroomCls (wire_to_json (ClassroomMsg (mkClassroom subject [])))
    = Some (ClassroomMsg (mkClassroom subject [])) →
  __call__ routes (classroom_app (S fuel)) scope w
  = (Raise ZeroDivisionError,
     mkWorld later (outbound w) (start_message w) (S (invocations w))).
Proof.
  intros Hmethod Hpath Hbin Hin Hwire Hjson.
  erewrite call_classroom by done. reflexivity.
Qed.

(** C1: a binary request to POST /classroom that carries a classroom of three
    students, in however many chunks, is answered with two events: a header
    announcement with status 200 whose content-type is the binary media
    type and whose content-length is the length of the body, and one final
    body chunk with the binary encoding of the stats message whose
    [numstudents] is 3 and whose [grade] is the sum of the three average
    grades divided by 3. *)
Theorem C1_three_students_mean (s1 s2 s3 : Student) (subject : string)
    (scope : Scope) (chunk : bytes) (more : list bytes) (later : list Message)
    (fuel : nat) (w : World) :
  let classroom := mkClassroom subject [s1; s2; s3] in
  let stats :=
    mkClassStats 3
      (true_div (builtin_sum [avg_grade s1; avg_grade s2; avg_grade s3]) 3) in
  let reply := wire_SerializeToString (ClassStatsMsg stats) in
  scope_method scope = "POST" →
  scope_path scope = "/classroom" →
  classify scope = Binary →
  inbound w = request_chunks chunk more ++ later →
  String.concat EmptyString (chunk :: more)
    = wire_SerializeToString (ClassroomMsg classroom) →
  wire_FromString ClassroomCls (wire_SerializeToString (ClassroomMsg classroom))
    = Some (ClassroomMsg classroom) →
  wire_from_json ClassroomCls (wire_to_json (ClassroomMsg classroom))
    = Some (ClassroomMsg classroom) →
  wire_from_json ClassStatsCls (wire_to_json (ClassStatsMsg stats))
    = Some (ClassStatsMsg stats) →
  ∃ w',
    __call__ routes (classroom_app (S fuel)) scope w = (Ok (), w')
    ∧ sent_since w w'
      = [ http_response_start 200
            [("content-length", str_encode (String.length reply));
             ("content-type", protobuf_media_type)];
          http_response_body reply false ]
    ∧ inbound w' = later.
Proof.
  intros classroom stats reply Hmethod Hpath Hbin Hin Hbody Hwire Hjson Hstats.
  assert (is_protobuf_request scope = true) as Hreq.
  { unfold classify in Hbin. by destruct (is_protobuf_request scope). }
  rewrite <- Hbody in Hwire.
  erewrite call_classroom by done.
  change (summarize_classroom classroom) with (Ok stats).
  cbn match. unfold json_response.
  erewrite drive_send by (by apply new_send_start).
  erewrite drive_send by
    (eapply (new_send_body (H := school_codec) ClassStatsCls);
     [reflexivity|reflexivity|exact Hstats|reflexivity|reflexivity]).
  eexists. split; [reflexivity|].
  unfold sent_since. cbn [outbound inbound]. by rewrite drop_app_length.
Qed.

End SchoolProps.

(** ** The properties on the classroom of the repository's client *)

Example handler_on_math_class :
  summarize_classroom math_class
  = Ok (mkClassStats 3 0x1.6fbbbbbbbbbbcp+6%float).
Proof. reflexivity. Qed.

Example demo_codec_round_trip :
  wire_FromString ClassroomCls math_wire = Some (ClassroomMsg math_class)
  ∧ wire_from_json ClassroomCls math_json = Some (ClassroomMsg math_class)
  ∧ wire_FromString ClassroomCls math_json = None.
Proof. split_and!; vm_compute; reflexivity. Qed.

(** The classroom of three, posted in two chunks. *)
Lemma C1_witness :
  ∃ w',
    __call__ routes (classroom_app 1) (protobuf_post "/classroom")
      (connection (request_chunks math_wire_head [math_wire_tail])) = (Ok (), w')
    ∧ sent_since (connection (request_chunks math_wire_head [math_wire_tail])) w'
      = [ http_response_start 200
            [("content-length",
              str_encode (String.length
                (wire_SerializeToString (ClassStatsMsg math_stats))));
             ("content-type", protobuf_media_type)];
          http_response_body (wire_SerializeToString (ClassStatsMsg math_stats)) false ]
    ∧ inbound w' = [].
Proof.
  apply (C1_three_students_mean john jane jim "Math" (protobuf_post "/classroom")
           math_wire_head [math_wire_tail] [] 0
           (connection (request_chunks math_wire_head [math_wire_tail])));
    vm_compute; reflexivity.
Defined.

(** Two body events that each carry a whole JSON text. *)
Lemma C2_witness :
  drive receive (new_send true stats_class)
    (emit (json_start 200 "a"
           :: map (λ c : bytes * bool, http_response_body c.1 c.2)
                  [(stats_json, true); (stats_json, false)]))
    (connection [])
  = (Ok (), mkWorld [] (framed (json_start 200 "a")
                          [("x-request-id", "a"); ("content-type", json_media_type)]
                          (wire_SerializeToString (ClassStatsMsg math_stats))
                        ++ framed (json_start 200 "a")
                          [("x-request-id", "a"); ("content-type", json_media_type)]
                          (wire_SerializeToString (ClassStatsMsg math_stats)))
              (Some (json_start 200 "a")) 0).
Proof.
  apply (C2_each_chunk_translated_alone (H := school_codec) ClassStatsCls (json_start 200 "a")
           [("x-request-id", "a"); ("content-type", json_media_type)] receive
           [(stats_json, true); (stats_json, false)]
           [ClassStatsMsg math_stats; ClassStatsMsg math_stats] (connection [])).
  - reflexivity.
  - reflexivity.
  - repeat constructor; vm_compute; reflexivity.
Defined.

(** The JSON request of the repository's client. *)
Lemma C3_witness :
  __call__ routes (classroom_app 1) (json_post "/classroom")
    (connection [http_request stats_json false])
  = await_app (classroom_app 1) (json_post "/classroom") receive send
      (connection [http_request stats_json false]).
Proof.
  apply (C3_pass_through_is_bare_app routes (classroom_app 1) (json_post "/classroom")).
  vm_compute. discriminate.
Defined.

(** One header announcement, one body event. *)
Lemma C5_witness :
  ∃ w',
    drive receive (new_send true stats_class)
      (emit [json_start 200 "a"; http_response_body stats_json false]) (connection [])
      = (Ok (), w')
    ∧ sent_since (connection []) w'
      = [ with_headers (json_start 200 "a")
            (rewrite_headers [("x-request-id", "a"); ("content-type", json_media_type)]
               (SerializeToString (ClassStatsMsg math_stats)));
          http_response_body (SerializeToString (ClassStatsMsg math_stats)) false ]
    ∧ well_framed (sent_since (connection []) w')
        (SerializeToString (ClassStatsMsg math_stats)).
Proof.
  apply (C5_one_header_then_one_body (H := school_codec) ClassStatsCls (json_start 200 "a")
           (http_response_body stats_json false)
           [("x-request-id", "a"); ("content-type", json_media_type)]
           stats_json (ClassStatsMsg math_stats) receive (connection []));
    vm_compute; reflexivity.
Defined.

(** One body event behind an announcement with mixed-case header names, on
    an instance that still holds the announcement of an earlier request. *)
Lemma C6_witness :
  ∃ w',
    drive receive (new_send true stats_class)
          (emit (mixed_case_start
                 :: map (λ c : bytes * bool, http_response_body c.1 c.2)
                        [(stats_json, false)])) stale_w
      = (Ok (), w')
    ∧ sent_since stale_w w'
      = concat (map (λ m,
          [ mkMessage "http.response.start" (msg_body mixed_case_start)
              (msg_more_body mixed_case_start) (msg_status mixed_case_start)
              (Some (filter (λ kv, ¬ same_name kv.1 "content-type"
                                   ∧ ¬ same_name kv.1 "content-length")
                            [ ("X-Request-Id", "a"); ("Content-Type", json_media_type);
                              ("content-length", "42"); ("cache-control", "no-store") ]
                     ++ [("content-length",
                          pretty (String.length (SerializeToString m)));
                         ("content-type", protobuf_media_type)]));
            mkMessage "http.response.body" (Some (SerializeToString m))
              (Some false) None None ]) [ClassStatsMsg math_stats]).
Proof.
  apply (C6_header_rewrite (H := school_codec) ClassStatsCls mixed_case_start
           [ ("X-Request-Id", "a"); ("Content-Type", json_media_type);
             ("content-length", "42"); ("cache-control", "no-store") ]
           receive [(stats_json, false)] [ClassStatsMsg math_stats] stale_w).
  - reflexivity.
  - reflexivity.
  - repeat constructor; vm_compute; reflexivity.
Defined.

Example rewritten_headers_on_the_wire :
  outbound (drive receive (new_send true stats_class)
              (emit [mixed_case_start; http_response_body stats_json false])
              stale_w).2
  = [ http_response_start 200
        [ ("X-Request-Id", "a"); ("cache-control", "no-store");
          ("content-length", "45"); ("content-type", protobuf_media_type) ];
      http_response_body (wire_SerializeToString (ClassStatsMsg math_stats)) false ]
  ∧ String.length (wire_SerializeToString (ClassStatsMsg math_stats)) = 45%nat.
Proof. split; vm_compute; reflexivity. Qed.

(** The classroom of three, posted in two chunks. *)
Lemma C8_witness :
  let scope := protobuf_post "/classroom" in
  let w := connection (request_chunks math_wire_head [math_wire_tail]) in
  let json_scope :=
    with_scope_headers scope (json_scope_headers (scope_headers scope)) in
  let source := new_receive true (to_json (ClassroomMsg math_class)) in
  __call__ routes (classroom_app 1) scope w
    = await_app (classroom_app 1) json_scope source
        (new_send true stats_class)
        (mkWorld [] (outbound w) (start_message w) (invocations w))
  ∧ dict (scope_headers json_scope) !! "content-type" = Some json_media_type
  ∧ (∀ k v, (k, v) ∈ scope_headers json_scope → k = "content-type" →
            v = json_media_type)
  ∧ filter (λ kv, kv.1 ≠ "content-type") (scope_headers json_scope)
    = filter (λ kv, kv.1 ≠ "content-type") (scope_headers scope)
  ∧ (∀ n w0, pulls n source w0
             = replicate n (http_request (to_json (ClassroomMsg math_class)) false))
  ∧ (∀ fuel k tx w0,
       drive source tx (request_body (S fuel) EmptyString k) w0
       = drive source tx (k (to_json (ClassroomMsg math_class))) w0).
Proof.
  apply (C8_json_body_on_every_pull (H := school_codec) routes (classroom_app 1)
           (protobuf_post "/classroom")
           (connection (request_chunks math_wire_head [math_wire_tail]))
           math_wire_head [math_wire_tail] []
           classroom_endpoint (ProtoClass (H := school_codec) ClassStatsCls)
           ClassroomCls (ClassroomMsg math_class)).
  - reflexivity.
  - reflexivity.
  - reflexivity.
  - reflexivity.
  - reflexivity.
  - vm_compute. reflexivity.
Defined.

(** A classroom without students. *)
Lemma C10_witness :
  summarize_classroom (mkClassroom "Math" []) = Raise ZeroDivisionError
  ∧ ∀ stats, summarize_classroom (mkClassroom "Math" []) ≠ Ok stats.
Proof.
  apply (C10_empty_classroom_divides_by_zero (mkClassroom "Math" [])).
  reflexivity.
Defined.

(** C2 (counterexample): a response whose JSON body is emitted in two
    chunk events.  Buffering as the claim describes it would forward the
    translation of the two chunks put together; the code tries to decode the
    first chunk on its own, raises, and forwards nothing for either chunk. *)
Example C2_counterexample_split_body :
  spec_buffered_response ClassStatsCls (json_start 200 "a")
      [("x-request-id", "a"); ("content-type", json_media_type)]
      [stats_json_head; stats_json_tail]
    = Some (framed (json_start 200 "a")
              [("x-request-id", "a"); ("content-type", json_media_type)]
              (wire_SerializeToString (ClassStatsMsg math_stats)))
  ∧ drive receive (new_send true stats_class)
      (emit (json_start 200 "a" :: body_events [stats_json_head; stats_json_tail]))
      (connection [])
    = (Raise ValueError, mkWorld [] [] (Some (json_start 200 "a")) 0).
Proof. split; vm_compute; reflexivity. Qed.

(** C5 (counterexample): a binary-path response with two body-chunk events
    that each decode.  The middleware forwards the header announcement
    twice, each time followed by a body chunk. *)
Example C5_counterexample_two_chunks :
  length (filter is_announcement
            (outbound (drive receive (new_send true stats_class)
                         (emit [ json_start 200 "a";
                                 http_response_body stats_json true;
                                 http_response_body stats_json false ])
                         (connection [])).2)) = 2%nat
  ∧ ¬ ∃ payload,
        well_framed
          (outbound (drive receive (new_send true stats_class)
                       (emit [ json_start 200 "a";
                               http_response_body stats_json true;
                               http_response_body stats_json false ])
                       (connection [])).2) payload.
Proof.
  split; [vm_compute; reflexivity|].
  intros (payload & announcement & Htrace & _). vm_compute in Htrace. discriminate.
Qed.

Lemma pulls_after_the_body (n : nat) (out : list Message)
    (held : option Message) (calls : nat) :
  pulls n receive (mkWorld [] out held calls) = replicate n http_disconnect.
Proof. induction n as [|n IH]; [done|]. cbn [pulls replicate receive inbound]. by rewrite IH. Qed.

(** The server's own [receive] on a one-chunk body is single-shot: the body
    comes once, and every later pull gets the disconnect. *)
Lemma receive_yields_exactly_once (body : bytes) :
  yields_exactly_once receive body (connection [http_request body false]).
Proof.
  intros n Hn. destruct n as [|n]; [lia|].
  cbn [pulls receive connection inbound outbound start_message invocations].
  rewrite pulls_after_the_body. rewrite filter_cons_True.
  - cbn [length]. f_equal. clear Hn. induction n as [|n IH]; [done|].
    cbn [replicate]. rewrite filter_cons_False; [exact IH|].
    unfold carries. by rewrite bool_decide_eq_false_2.
  - unfold carries. by rewrite bool_decide_eq_true_2.
Qed.

(** C8 (counterexample): the replacement chunk source is not single-shot; a
    second pull yields the JSON body again. *)
Example C8_counterexample_second_pull :
  pulls 2 (new_receive true math_json) (connection [])
    = [http_request math_json false; http_request math_json false]
  ∧ length (filter (λ m, carries math_json m = true)
              (pulls 2 (new_receive true math_json) (connection []))) = 2%nat
  ∧ ¬ yields_exactly_once (new_receive true math_json) math_json (connection []).
Proof.
  split; [reflexivity|]. split; [vm_compute; reflexivity|].
  intros Honce. specialize (Honce 2%nat ltac:(lia)).
  vm_compute in Honce. discriminate.
Qed.

(** C4 (the code at the failing input): a binary request to /classroom whose
    body is a truncated encoding.  [FromString] rejects it, and its
    exception leaves [__call__] as it is: not an [HTTPException] of the
    4xx range as for an unknown route or an unusable signature, and no
    response event is sent.  The downstream application is not invoked,
    whichever it is. *)
Theorem C4_malformed_body_raises_uncaught (app : ASGIApp) :
  wire_FromString ClassroomCls math_wire_head = None
  ∧ __call__ routes app (protobuf_post "/classroom")
      (connection [http_request math_wire_head false])
    = (Raise DecodeError, connection [])
  ∧ is_client_error DecodeError = false
  ∧ (∃ e, __call__ routes app (protobuf_post "/nowhere")
            (connection [http_request math_wire_head false])
          = (Raise e, connection []) ∧ is_client_error e = true).
Proof.
  split_and!; [vm_compute; reflexivity..|].
  eexists. split; vm_compute; reflexivity.
Qed.

(** C9 (the code at the failing input): two binary requests whose responses
    overlap.  The header announcement forwarded to the first request is the
    one the second request's application sent (status 201, request id b),
    because both calls keep it in the one [self.start_message]; run on its
    own, the first request gets its own announcement (status 200, id a). *)
Theorem C9_overlapping_requests_interfere :
  sent_a (interleave stats_return overlapping)
    = framed (json_start 201 "b")
        [("x-request-id", "b"); ("content-type", json_media_type)]
        (wire_SerializeToString (ClassStatsMsg math_stats))
  ∧ sent_a (alone stats_return TaskA overlapping)
    = framed (json_start 200 "a")
        [("x-request-id", "a"); ("content-type", json_media_type)]
        (wire_SerializeToString (ClassStatsMsg math_stats))
  ∧ ¬ isolated stats_return overlapping.
Proof.
  split_and!; [vm_compute; reflexivity..|].
  intros [Ha _]. vm_compute in Ha. discriminate.
Qed.

(** * Further properties of the module *)

(** ** Headers *)

Lemma append_empty_right (a : bytes) : a +:+ EmptyString = a.
Proof.
  induction a as [|x a IH]; [done|].
  change (String x (a +:+ EmptyString) = String x a). by rewrite IH.
Qed.

Lemma kept_twice (headers : list header) :
  filter (λ kv : header, lower kv.1 ∉ ["content-type"; "content-length"])
    (filter (λ kv : header, lower kv.1 ∉ ["content-type"; "content-length"]) headers)
  = filter (λ kv : header, lower kv.1 ∉ ["content-type"; "content-length"]) headers.
Proof.
  induction headers as [|kv headers IH]; [done|].
  destruct (decide (lower kv.1 ∉ ["content-type"; "content-length"])) as [Hk|Hk].
  - rewrite filter_cons_True by exact Hk. rewrite filter_cons_True by exact Hk.
    by rewrite IH.
  - by rewrite filter_cons_False by exact Hk.
Qed.

(** X1: rewriting a header list that was already rewritten only replaces the
    two entries the first rewrite appended: the unrelated headers are kept
    once, and the length and media type are those of the second body. *)
Theorem rewrite_headers_overwrites (headers : list header) (first second : bytes) :
  rewrite_headers (rewrite_headers headers first) second
  = rewrite_headers headers second.
Proof.
  unfold rewrite_headers. rewrite filter_app, kept_twice.
  rewrite filter_cons_False; [|intros Hn; apply Hn; set_solver].
  rewrite filter_cons_False; [|intros Hn; apply Hn; set_solver].
  by rewrite filter_nil, app_nil_r.
Qed.

Lemma same_name_kept (name : bytes) (headers : list header) :
  name ∈ ["content-type"; "content-length"] →
  filter (λ kv : header, same_name kv.1 name)
    (filter (λ kv : header, lower kv.1 ∉ ["content-type"; "content-length"]) headers)
  = [].
Proof.
  intros Hname. induction headers as [|kv headers IH]; [done|].
  destruct (decide (lower kv.1 ∉ ["content-type"; "content-length"])) as [Hk|Hk].
  - rewrite (filter_cons_True (λ kv : header, lower kv.1 ∉ _)) by exact Hk.
    rewrite filter_cons_False; [exact IH|].
    unfold same_name. intros Hsame. apply Hk. rewrite Hsame.
    apply list_elem_of_In in Hname. cbn in Hname.
    destruct Hname as [<-|[<-|[]]]; set_solver.
  - by rewrite (filter_cons_False (λ kv : header, lower kv.1 ∉ _)) by exact Hk.
Qed.

(** X2: whatever headers the application announced, in whatever letter
    case, the rewritten list carries exactly one header named content-type
    and exactly one named content-length: the binary media type and the
    decimal length of the translated body. *)
Theorem rewrite_headers_declares_once (headers : list header) (proto_body : bytes) :
  filter (λ kv : header, same_name kv.1 "content-type")
         (rewrite_headers headers proto_body)
    = [("content-type", protobuf_media_type)]
  ∧ filter (λ kv : header, same_name kv.1 "content-length")
           (rewrite_headers headers proto_body)
    = [("content-length", str_encode (String.length proto_body))].
Proof.
  unfold rewrite_headers. rewrite !filter_app.
  rewrite !same_name_kept by set_solver. split; reflexivity.
Qed.

(** X3: line 116 changes values only: the names of the request headers, their
    number and their order are those the server delivered. *)
Theorem json_scope_headers_keeps_names (headers : list header) :
  map fst (json_scope_headers headers) = map fst headers.
Proof.
  unfold json_scope_headers. induction headers as [|[k v] headers IH]; [done|].
  cbn [map fst snd]. rewrite IH. by case_bool_decide.
Qed.

(** X4: the scope handed to the application is never a binary request again:
    read with the middleware's own test it passes through, and its
    content-type is the JSON media type. *)
Theorem json_scope_passes_through (scope : Scope) :
  is_protobuf_request scope = true →
  is_protobuf_request
    (with_scope_headers scope (json_scope_headers (scope_headers scope))) = false
  ∧ dict (json_scope_headers (scope_headers scope)) !! "content-type"
    = Some json_media_type.
Proof.
  intros Hbin. apply is_protobuf_request_spec in Hbin as [_ Hct].
  assert (last_value "content-type" (json_scope_headers (scope_headers scope))
          = Some json_media_type) as Hjson.
  { by rewrite last_value_json_scope, Hct. }
  split; [|by rewrite dict_lookup].
  apply not_true_is_false. rewrite is_protobuf_request_spec.
  cbn [with_scope_headers scope_headers]. rewrite Hjson. by intros [_ [=]].
Qed.

(** ** Reading the request body *)

Lemma concat_cons (chunk : bytes) (chunks : list bytes) :
  String.concat EmptyString (chunk :: chunks)
  = chunk +:+ String.concat EmptyString chunks.
Proof. destruct chunks; cbn [String.concat]; [by rewrite append_empty_right|done]. Qed.

(** X5: the loop of lines 87-90 stops at the first event that does not
    announce more: the body is the concatenation, in order, of the bytes of
    the events up to and including that one (an event without a body key
    counts as empty), and the events after it stay pending. *)
Theorem drain_stops_at_last_chunk (before : list Message) (final : Message)
    (later : list Message) (w : World) :
  Forall announces_more before →
  ¬ announces_more final →
  inbound w = before ++ final :: later →
  drain w
  = (Ok (String.concat EmptyString (map body_of (before ++ [final]))),
     mkWorld later (outbound w) (start_message w) (invocations w)).
Proof.
  intros Hmore Hfinal Hin. unfold drain, drain_from. rewrite Hin.
  assert (∀ acc, read_body acc (before ++ final :: later)
                 = (acc +:+ String.concat EmptyString (map body_of (before ++ [final])),
                    later)) as ->; [|done].
  clear Hin. induction Hmore as [|message before Hm _ IH]; intros acc.
  - cbn [app read_body map]. unfold announces_more in Hfinal.
    apply not_true_is_false in Hfinal. rewrite Hfinal.
    by rewrite concat_cons, append_empty_right.
  - cbn [app read_body map]. unfold announces_more in Hm. rewrite Hm, IH.
    by rewrite concat_cons, append_assoc.
Qed.

(** X6: when the client goes away before an event without more-to-come was
    delivered, the loop ends all the same: it returns the bytes read so far
    as the body, without an error, and nothing stays pending. *)
Theorem drain_on_disconnect (pending : list Message) (w : World) :
  Forall announces_more pending →
  inbound w = pending →
  drain w
  = (Ok (String.concat EmptyString (map body_of pending)),
     mkWorld [] (outbound w) (start_message w) (invocations w)).
Proof.
  intros Hmore Hin. unfold drain, drain_from. rewrite Hin.
  assert (∀ acc, read_body acc pending
                 = (acc +:+ String.concat EmptyString (map body_of pending), []))
    as ->; [|done].
  clear Hin. induction Hmore as [|message pending Hm _ IH]; intros acc.
  - cbn. by rewrite !append_empty_right.
  - cbn [read_body map]. unfold announces_more in Hm. rewrite Hm, IH.
    by rewrite concat_cons, append_assoc.
Qed.

(** ** Resolving the route *)

Section Routing.
Context `{Codec}.

Lemma find_endpoint_skips (before : list Route) (rest : list Route) (path : string) :
  (∀ endpoint, APIRoute path endpoint ∉ before) →
  find_endpoint (before ++ rest) path = find_endpoint rest path.
Proof.
  induction before as [|route before IH]; intros Hnone; [done|].
  cbn [app find_endpoint]. destruct route as [route_path endpoint|route_path].
  - rewrite bool_decide_eq_false_2.
    + apply IH. intros e He. apply (Hnone e). by right.
    + intros ->. apply (Hnone endpoint). by left.
  - apply IH. intros e He. apply (Hnone e). by right.
Qed.

(** X7: the route table is searched in order for the first [APIRoute] whose
    path equals the request path; routes of other kinds are passed over even
    when their path is equal, and the request method plays no part. *)
Theorem find_endpoint_first_api_route (before after : list Route) (path : string)
    (endpoint : Endpoint) :
  (∀ other, APIRoute path other ∉ before) →
  find_endpoint (before ++ APIRoute path endpoint :: after) path = Ok endpoint.
Proof.
  intros Hnone. rewrite find_endpoint_skips by done.
  cbn [find_endpoint]. by rewrite bool_decide_eq_true_2.
Qed.

Lemma find_endpoint_none (routes : list Route) (path : string) :
  (∀ endpoint, APIRoute path endpoint ∉ routes) →
  find_endpoint routes path = Raise (HTTPException 404 "Endpoint not found").
Proof.
  intros Hnone. rewrite <- (app_nil_r routes). by rewrite find_endpoint_skips.
Qed.

(** X8: a binary request for a path no [APIRoute] has ends with an
    [HTTPException] of status 404, whatever its body: nothing is sent, the
    application is not awaited, and the request body has been pulled from the
    server all the same. *)
Theorem call_unknown_path_404 (routes : list Route) (app : ASGIApp) (scope : Scope)
    (w : World) :
  is_protobuf_request scope = true →
  (∀ endpoint, APIRoute (scope_path scope) endpoint ∉ routes) →
  __call__ routes app scope w
  = (Raise (HTTPException 404 "Endpoint not found"), drained w).
Proof.
  intros Hbin Hnone. apply call_unknown_route; [done|]. by apply find_endpoint_none.
Qed.

(** X9: when the endpoint of the route declares no return type, or none of
    its parameters is a message class, a binary request ends with an
    [HTTPException] of status 400 before the body is decoded: even a
    well-formed body is not passed on, and nothing is sent. *)
Theorem call_unusable_signature_400 (routes : list Route) (app : ASGIApp)
    (scope : Scope) (w : World) (endpoint : Endpoint) :
  is_protobuf_request scope = true →
  find_endpoint routes (scope_path scope) = Ok endpoint →
  return_hint endpoint = None ∨ first_proto_class (param_hints endpoint) = None →
  __call__ routes app scope w = (Raise signature_error, drained w).
Proof.
  intros Hbin Hroute Hsig. unfold __call__, drained. rewrite Hbin.
  unfold mbind, M_bind, drain, drain_from, lift.
  destruct (read_body EmptyString (inbound w)) as [body rest]. cbn [fst snd].
  rewrite Hroute. destruct (return_hint endpoint) as [h|]; [|done].
  destruct Hsig as [[=]|Hcls]. cbn [mret M_ret]. by rewrite Hcls.
Qed.

(** X10: a scope that is not an http scope, or that has no headers, is
    never translated, whatever content-type it names: the application runs on
    the server's own callables. *)
Theorem call_other_scopes_pass_through (routes : list Route) (app : ASGIApp)
    (scope : Scope) (w : World) :
  scope_type scope ≠ "http" ∨ scope_headers scope = [] →
  __call__ routes app scope w = await_app app scope receive send w.
Proof.
  intros Hother. apply call_pass_through. unfold is_protobuf_request.
  destruct Hother as [Htype|Hnone].
  - by rewrite bool_decide_eq_false_2.
  - rewrite Hnone. by rewrite andb_false_r.
Qed.

End Routing.

(** ** What the binary path hands to the server *)

Section BinaryPath.
Context `{Codec}.

Lemma new_send_raise_world (is_protobuf : bool)
    (return_object : option hint) (message : Message) (w w' : World) (e : exn) :
  new_send is_protobuf return_object message w = (Raise e, w') →
  w' = w.
Proof.
  unfold new_send. destruct is_protobuf; [|discriminate].
  case_bool_decide; [discriminate|]. case_bool_decide; [|discriminate].
  unfold mbind, M_bind, lift, get_start_message, send.
  destruct (msg_body message) as [json_body|]; cbn [getitem]; [|by intros [= _ <-]].
  destruct (transcode_response return_object json_body) as [proto_body|];
    [|by intros [= _ <-]].
  destruct (start_message w) as [start|]; [|by intros [= _ <-]].
  destruct (msg_headers start) as [captured|]; cbn [getitem]; [|by intros [= _ <-]].
  discriminate.
Qed.

(** X11: [new_send] fails before it sends: when a call raises (a body event
    without a body key, a body that does not decode, no header announcement
    captured yet, a captured announcement without headers), no event has
    been handed to the server and [self.start_message] is as it was. *)
Theorem new_send_raises_before_sending (is_protobuf : bool)
    (return_object : option hint) (message : Message) (w w' : World) (e : exn) :
  new_send is_protobuf return_object message w = (Raise e, w') →
  w' = w.
Proof. apply new_send_raise_world. Qed.

(** X12: a body event that arrives while no header announcement was ever
    captured on this middleware instance raises [AttributeError], although
    the body itself decoded; the translated body is dropped and the events
    the application meant to send after it are never sent. *)
Theorem body_before_announcement (cls : MsgClass) (body_event : Message)
    (json_body : bytes) (m : Msg) (rest : list Message) (rx : M Message)
    (w : World) :
  msg_type body_event = "http.response.body" →
  msg_body body_event = Some json_body →
  from_json cls json_body = Some m →
  start_message w = None →
  drive rx (new_send true (Some (ProtoClass cls))) (emit (body_event :: rest)) w
  = (Raise (AttributeError "start_message"), w).
Proof.
  intros Ht Hb Hm Hnone. cbn [emit foldr drive]. unfold mbind at 1, M_bind at 1.
  unfold new_send. rewrite Ht.
  rewrite bool_decide_eq_false_2, bool_decide_eq_true_2 by done.
  unfold mbind, M_bind, lift, get_start_message, transcode_response.
  rewrite Hb. cbn [getitem]. by rewrite Hm, Hnone.
Qed.

(** X13: header announcements alone are never forwarded: an application that
    sends only header announcements and then stops leaves the server without
    any event, and the instance keeps the last of them. *)
Theorem announcements_are_withheld (return_object : option hint)
    (announcements : list Message) (rx : M Message) (w : World) :
  Forall (λ m, msg_type m = "http.response.start") announcements →
  drive rx (new_send true return_object) (emit announcements) w
  = (Ok (), mkWorld (inbound w) (outbound w)
              (from_option Some (start_message w) (last announcements))
              (invocations w)).
Proof.
  intros Hall. revert w. induction Hall as [|m announcements Hm _ IH]; intros w.
  - cbn. by destruct w.
  - cbn [emit foldr]. erewrite drive_send by (by apply new_send_start).
    fold (emit announcements). rewrite IH. cbn [inbound outbound start_message invocations].
    destruct announcements as [|m' announcements]; [done|].
    rewrite last_cons_cons.
    destruct (last (m' :: announcements)) eqn:Hlast; [done|].
    by apply last_None in Hlast.
Qed.

(** X14: a response body that does not decode as the route's output type is
    never passed on: the call raises, neither the captured header
    announcement nor the JSON bytes reach the server, and the events after
    it are not processed. *)
Theorem undecodable_response_is_dropped (cls : MsgClass) (start body_event : Message)
    (json_body : bytes) (rest : list Message) (rx : M Message) (w : World) :
  msg_type start = "http.response.start" →
  msg_type body_event = "http.response.body" →
  msg_body body_event = Some json_body →
  from_json cls json_body = None →
  drive rx (new_send true (Some (ProtoClass cls)))
        (emit (start :: body_event :: rest)) w
  = (Raise ValueError,
     mkWorld (inbound w) (outbound w) (Some start) (invocations w)).
Proof.
  intros Hts Htb Hb Hm. cbn [emit foldr].
  erewrite drive_send by (by apply new_send_start).
  cbn [drive]. unfold mbind at 1, M_bind at 1.
  by erewrite new_send_body_undecodable.
Qed.

Lemma binary_trace_app (first second : list Message) :
  binary_trace first → binary_trace second → binary_trace (first ++ second).
Proof.
  intros Hfirst Hsecond. induction Hfirst as [|m rest Hs Hb _ IH|start captured body rest Hs _ IH].
  - done.
  - cbn [app]. by constructor.
  - rewrite <- app_assoc. by constructor.
Qed.

(** One call of [new_send] on the binary path. *)
Lemma new_send_frame (return_object : option hint) (message : Message) (w : World) :
  start_ok w →
  ∃ added,
    inbound (new_send true return_object message w).2 = inbound w
    ∧ invocations (new_send true return_object message w).2 = invocations w
    ∧ outbound (new_send true return_object message w).2 = outbound w ++ added
    ∧ binary_trace added
    ∧ start_ok (new_send true return_object message w).2.
Proof.
  intros Hok. unfold new_send. case_bool_decide as Hstart.
  - exists []. cbn. rewrite app_nil_r. split_and!; [done..|constructor|].
    intros start [= <-]. exact Hstart.
  - case_bool_decide as Hbody.
    + destruct (new_send true return_object message w) as [[[]|e] w'] eqn:Hsend.
      * destruct (new_send_body_inv _ _ _ _ Hbody Hsend)
          as (start & captured & body & Hs & _ & _ & ->).
        unfold new_send in Hsend. rewrite bool_decide_eq_false_2 in Hsend by done.
        rewrite bool_decide_eq_true_2 in Hsend by done. rewrite Hsend.
        exists (framed start captured body). cbn [snd inbound outbound invocations].
        split_and!; [done..| |].
        -- rewrite <- (app_nil_r (framed _ _ _)). constructor; [by apply Hok|constructor].
        -- exact Hok.
      * pose proof (new_send_raise_world _ _ _ _ _ _ Hsend) as ->.
        unfold new_send in Hsend. rewrite bool_decide_eq_false_2 in Hsend by done.
        rewrite bool_decide_eq_true_2 in Hsend by done. rewrite Hsend.
        exists []. cbn [snd]. rewrite app_nil_r. split_and!; [done..|constructor|done].
    + exists [message]. cbn. split_and!; [done..| |done].
      constructor; [done..|constructor].
Qed.

(** The whole run of an application on the binary path. *)
Lemma drive_binary_frame (json_body : bytes) (return_object : option hint) (c : Coro) :
  ∀ w, start_ok w →
  ∃ added,
    inbound (drive (new_receive true json_body) (new_send true return_object) c w).2
      = inbound w
    ∧ invocations (drive (new_receive true json_body) (new_send true return_object) c w).2
      = invocations w
    ∧ outbound (drive (new_receive true json_body) (new_send true return_object) c w).2
      = outbound w ++ added
    ∧ binary_trace added
    ∧ start_ok (drive (new_receive true json_body) (new_send true return_object) c w).2.
Proof.
  induction c as [|k IH|message k IH|e]; intros w Hok.
  - exists []. cbn. rewrite app_nil_r. split_and!; [done..|constructor|done].
  - cbn [drive]. unfold mbind, M_bind. cbn [new_receive negb mret M_ret]. by apply IH.
  - cbn [drive]. unfold mbind, M_bind.
    destruct (new_send_frame return_object message w Hok)
      as (added1 & Hin1 & Hinv1 & Hout1 & Htrace1 & Hok1).
    destruct (new_send true return_object message w) as [[[]|e] w1]; cbn [snd] in *.
    + destruct (IH w1 Hok1) as (added2 & Hin2 & Hinv2 & Hout2 & Htrace2 & Hok2).
      exists (added1 ++ added2). rewrite Hin2, Hinv2, Hout2, Hout1, app_assoc.
      split_and!; [done..|by apply binary_trace_app|done].
    + exists added1. split_and!; done.
  - exists []. cbn. rewrite app_nil_r. split_and!; [done..|constructor|done].
Qed.

Lemma new_send_keeps (return_object : option hint) (message : Message) (w : World) :
  inbound (new_send true return_object message w).2 = inbound w
  ∧ invocations (new_send true return_object message w).2 = invocations w.
Proof.
  unfold new_send. case_bool_decide; [done|]. case_bool_decide; [|done].
  unfold mbind, M_bind, lift, get_start_message, send.
  destruct (msg_body message) as [json_body|]; cbn [getitem]; [|done].
  destruct (transcode_response return_object json_body) as [proto_body|]; [|done].
  destruct (start_message w) as [start|]; [|done].
  by destruct (msg_headers start) as [captured|].
Qed.

Lemma drive_binary_keeps (json_body : bytes) (return_object : option hint) (c : Coro) :
  ∀ w,
    inbound (drive (new_receive true json_body) (new_send true return_object) c w).2
      = inbound w
    ∧ invocations (drive (new_receive true json_body) (new_send true return_object) c w).2
      = invocations w.
Proof.
  induction c as [|k IH|message k IH|e]; intros w; [done| | |done].
  - cbn [drive]. unfold mbind, M_bind. cbn [new_receive negb mret M_ret]. apply IH.
  - cbn [drive]. unfold mbind, M_bind.
    destruct (new_send_keeps return_object message w) as [Hin Hinv].
    destruct (new_send true return_object message w) as [[[]|e] w1]; cbn [snd] in *;
      [|done].
    destruct (IH w1) as [Hin1 Hinv1]. by rewrite Hin1, Hinv1.
Qed.

(** A binary request either stops before the application, with the body
    pulled, or runs the application with the replacement callables. *)
Lemma call_binary_cases (routes : list Route) (app : ASGIApp) (scope : Scope)
    (w : World) :
  is_protobuf_request scope = true →
  (∃ e, __call__ routes app scope w = (Raise e, drained w))
  ∨ (∃ json_body return_object,
       __call__ routes app scope w
       = await_app app
           (with_scope_headers scope (json_scope_headers (scope_headers scope)))
           (new_receive true json_body) (new_send true (Some return_object))
           (drained w)).
Proof.
  intros Hbin. unfold __call__, drained. rewrite Hbin.
  unfold mbind, M_bind, drain, drain_from, lift.
  destruct (read_body EmptyString (inbound w)) as [body rest]. cbn [fst snd].
  destruct (find_endpoint routes (scope_path scope)) as [endpoint|e]; [|by left; eexists].
  destruct (return_hint endpoint) as [h|]; [|by left; eexists]. cbn [mret M_ret].
  destruct (first_proto_class (param_hints endpoint)) as [cls|]; [|by left; eexists].
  cbn [mret M_ret].
  destruct (FromString cls body) as [m|]; [|by left; eexists].
  right. by eexists _, _.
Qed.

Lemma binary_trace_events (trace : list Message) :
  binary_trace trace →
  Forall (λ m, msg_type m = "http.response.body" → msg_more_body m = Some false) trace
  ∧ Forall (λ m, msg_type m = "http.response.start" →
                 ∃ kept length_text,
                   msg_headers m
                   = Some (kept ++ [("content-length", length_text);
                                    ("content-type", protobuf_media_type)])) trace.
Proof.
  induction 1 as [|m rest Hs Hb _ [IH1 IH2]|start captured body rest Hs _ [IH1 IH2]].
  - split; constructor.
  - split; constructor; done.
  - split; cbn [framed app].
    + constructor; [intros Hb; cbn in Hb; congruence|]. constructor; done.
    + constructor; [intros _; by eexists _, _|]. constructor; [discriminate|done].
Qed.

(** X15: for every binary request and every downstream application, what
    the middleware hands to the server is a sequence of events of other types,
    untouched, and of pairs made of a header announcement followed at once by
    a body chunk: every body chunk is final, and every header announcement
    ends with the content-length and the binary content-type.  This holds
    also when the request or the application ends with an exception. *)
Theorem call_binary_trace (routes : list Route) (app : ASGIApp) (scope : Scope)
    (w : World) :
  is_protobuf_request scope = true →
  start_ok w →
  ∃ added,
    outbound (__call__ routes app scope w).2 = outbound w ++ added
    ∧ binary_trace added
    ∧ Forall (λ m, msg_type m = "http.response.body" → msg_more_body m = Some false)
             added
    ∧ Forall (λ m, msg_type m = "http.response.start" →
                   ∃ kept length_text,
                     msg_headers m
                     = Some (kept ++ [("content-length", length_text);
                                      ("content-type", protobuf_media_type)]))
             added.
Proof.
  intros Hbin Hok.
  assert (∃ added, outbound (__call__ routes app scope w).2 = outbound w ++ added
                   ∧ binary_trace added) as (added & Hout & Htrace).
  { destruct (call_binary_cases routes app scope w Hbin) as [[e ->]|(j & ro & ->)].
    - exists []. cbn. rewrite app_nil_r. split; [done|constructor].
    - unfold await_app.
      edestruct (drive_binary_frame j (Some ro)) as (added & _ & _ & Hout & Htrace & _);
        [|exists added; split; [exact Hout|exact Htrace]].
      exact Hok. }
  exists added. destruct (binary_trace_events added Htrace). split_and!; done.
Qed.

(** X16: on the binary path the application cannot reach the server's
    [receive]: however often it pulls, the events that followed the request
    body (a disconnect, for one) are still pending when the call ends, and
    the application was awaited at most once. *)
Theorem call_binary_keeps_later_events (routes : list Route) (app : ASGIApp)
    (scope : Scope) (w : World) :
  is_protobuf_request scope = true →
  inbound (__call__ routes app scope w).2 = (read_body EmptyString (inbound w)).2
  ∧ (invocations (__call__ routes app scope w).2 = invocations w
     ∨ invocations (__call__ routes app scope w).2 = S (invocations w)).
Proof.
  intros Hbin.
  destruct (call_binary_cases routes app scope w Hbin) as [[e ->]|(j & ro & ->)].
  - split; [done|by left].
  - unfold await_app.
    destruct (drive_binary_keeps j (Some ro) (app
                (with_scope_headers scope (json_scope_headers (scope_headers scope))))
                (mkWorld (inbound (drained w)) (outbound (drained w))
                         (start_message (drained w)) (S (invocations (drained w)))))
      as [Hin Hinv].
    rewrite Hin, Hinv. split; [done|by right].
Qed.

End BinaryPath.

(** ** The endpoint behind the middleware, for any classroom *)

Section Pipeline.
Context `{PyFloat} `{!SchoolWire}.

Lemma summarize_nonempty (classroom : Classroom) :
  students classroom ≠ [] →
  summarize_classroom classroom
  = Ok (mkClassStats (length (students classroom))
          (true_div (builtin_sum (map avg_grade (students classroom)))
                    (length (students classroom)))).
Proof.
  intros Hsome. unfold summarize_classroom.
  destruct (students classroom) as [|s rest]; [done|reflexivity].
Qed.

(** X17: a binary request to /classroom with a classroom of any number of
    students but none, in any chunking, is answered with status 200, the
    binary content-type, the content-length of the body, and one final body
    chunk: the binary encoding of the stats with the number of students and
    the sum of their grades divided by that number. *)
Theorem binary_post_nonempty_classroom (classroom : Classroom) (scope : Scope)
    (chunk : bytes) (more : list bytes) (later : list Message) (fuel : nat)
    (w : World) :
  let stats :=
    mkClassStats (length (students classroom))
      (true_div (builtin_sum (map avg_grade (students classroom)))
                (length (students classroom))) in
  let reply := wire_SerializeToString (ClassStatsMsg stats) in
  students classroom ≠ [] →
  scope_method scope = "POST" →
  scope_path scope = "/classroom" →
  is_protobuf_request scope = true →
  inbound w = request_chunks chunk more ++ later →
  wire_FromString ClassroomCls (String.concat EmptyString (chunk :: more))
    = Some (ClassroomMsg classroom) →
  wire_from_json ClassroomCls (wire_to_json (ClassroomMsg classroom))
    = Some (ClassroomMsg classroom) →
  wire_from_json ClassStatsCls (wire_to_json (ClassStatsMsg stats))
    = Some (ClassStatsMsg stats) →
  ∃ w',
    __call__ routes (classroom_app (S fuel)) scope w = (Ok (), w')
    ∧ sent_since w w'
      = [ http_response_start 200
            [("content-length", str_encode (String.length reply));
             ("content-type", protobuf_media_type)];
          http_response_body reply false ]
    ∧ inbound w' = later.
Proof.
  intros stats reply Hsome Hmethod Hpath Hbin Hin Hwire Hjson Hstats.
  erewrite call_classroom by done.
  rewrite summarize_nonempty by done. fold stats.
  unfold json_response.
  erewrite drive_send by (by apply new_send_start).
  erewrite drive_send by
    (eapply (new_send_body (H := school_codec) ClassStatsCls);
     [reflexivity|reflexivity|exact Hstats|reflexivity|reflexivity]).
  eexists. split; [reflexivity|].
  unfold sent_since. cbn [outbound inbound]. by rewrite drop_app_length.
Qed.

(** X18: a binary request to /classroom whose body decodes to a
    classroom without students gets no response from the middleware: the
    handler's [ZeroDivisionError] leaves [__call__], after the application
    was awaited and with no event sent. *)
Theorem binary_post_empty_classroom (scope : Scope) (subject : string)
    (chunk : bytes) (more : list bytes) (later : list Message) (fuel : nat)
    (w : World) :
  scope_method scope = "POST" →
  scope_path scope = "/classroom" →
  is_protobuf_request scope = true →
  inbound w = request_chunks chunk more ++ later →
  wire_FromString ClassroomCls (String.concat EmptyString (chunk :: more))
    = Some (ClassroomMsg (mkClassroom subject [])) →
  wire_from_json ClassroomCls (wire_to_json (ClassroomMsg (mkClassroom subject [])))
    = Some (ClassroomMsg (mkClassroom subject [])) →
  ∃ w',
    __call__ routes (classroom_app (S fuel)) scope w = (Raise ZeroDivisionError, w')
    ∧ is_client_error ZeroDivisionError = false
    ∧ sent_since w w' = []
    ∧ invocations w' = S (invocations w).
Proof.
  intros Hmethod Hpath Hbin Hin Hwire Hjson.
  erewrite call_empty_classroom by done. eexists. split; [reflexivity|].
  unfold sent_since. cbn [outbound invocations]. by rewrite drop_all.
Qed.

Variable exn_str : exn → string.

(** X19: the string server reports every failure of its handler as an
    [HTTPException] with status 400 (a request body that cannot be read, bytes
    that do not decode, a classroom without students); what it returns
    otherwise has status 200. *)
Theorem string_server_fails_with_400 (request_body : result bytes) :
  match GoogleStringServer.summarize_classroom exn_str request_body with
  | Ok response => status_code response = 200%Z
  | Raise e => ∃ cause, e = HTTPException 400 ("Exception: " +:+ exn_str cause)
                        ∧ is_client_error e = true
  end.
Proof.
  unfold GoogleStringServer.summarize_classroom, GoogleStringServer.attempt.
  destruct request_body as [body|e]; [|by eexists].
  destruct (wire_FromString ClassroomCls body) as [[classroom|stats]|];
    [|by eexists..].
  destruct (truediv _ _) as [avg|e]; [done|by eexists].
Qed.

(** X20: on a body that decodes to a classroom the string server answers
    what the handler of the mixed server computes, as binary bytes with
    status 200; where that handler raises (no students), the string server
    raises an [HTTPException] with status 400 that names the cause. *)
Theorem string_server_agrees_with_handler (body : bytes) (classroom : Classroom) :
  wire_FromString ClassroomCls body = Some (ClassroomMsg classroom) →
  GoogleStringServer.summarize_classroom exn_str (Ok body)
  = match summarize_classroom classroom with
    | Ok stats => Ok (mkResponse 200 (wire_SerializeToString (ClassStatsMsg stats)))
    | Raise e => Raise (HTTPException 400 ("Exception: " +:+ exn_str e))
    end.
Proof.
  intros Hwire.
  unfold GoogleStringServer.summarize_classroom, GoogleStringServer.attempt,
    summarize_classroom.
  rewrite Hwire. by destruct (truediv _ _).
Qed.

End Pipeline.

(** ** Requests served one after the other *)

Section Serial.
Context `{Codec}.

(** The events a call of [new_send] adds do not depend on what was sent
    before, and a body event leaves [self.start_message] as it is. *)
Lemma new_send_body_world (return_object : option hint) (message : Message)
    (pending mine : list Message) (held : option Message) (n : nat) :
  msg_type message = "http.response.body" →
  (new_send true return_object message (mkWorld pending mine held n)).2
  = mkWorld pending
      (mine ++ outbound (new_send true return_object message
                           (mkWorld [] [] held 0)).2)
      held n.
Proof.
  intros Ht. unfold new_send. rewrite Ht.
  rewrite bool_decide_eq_false_2, bool_decide_eq_true_2 by done.
  unfold mbind, M_bind, lift, get_start_message, send.
  destruct (msg_body message) as [json_body|]; cbn [getitem];
    [|by cbn; rewrite app_nil_r].
  destruct (transcode_response return_object json_body) as [proto_body|];
    [|by cbn; rewrite app_nil_r].
  destruct held as [start|]; cbn [start_message]; [|by cbn; rewrite app_nil_r].
  destruct (msg_headers start) as [captured|]; cbn [getitem];
    [|by cbn; rewrite app_nil_r].
  cbn. by rewrite <- app_assoc.
Qed.

Lemma block_step (return_object : task → option hint) (who : task)
    (start body : Message) (s : Tasks) :
  msg_type start = "http.response.start" →
  msg_type body = "http.response.body" →
  task_send return_object who body (task_send return_object who start s)
  = match who with
    | TaskA => mkTasks (Some start)
                 (sent_a s ++ block_reply return_object (who, start, body)) (sent_b s)
    | TaskB => mkTasks (Some start) (sent_a s)
                 (sent_b s ++ block_reply return_object (who, start, body))
    end.
Proof.
  intros Hs Hb. unfold task_send at 2. rewrite new_send_start by exact Hs.
  cbn [snd start_message outbound]. unfold task_send, block_reply.
  destruct who; cbn [sent_a sent_b shared_start_message fst snd];
    rewrite new_send_body_world by exact Hb; reflexivity.
Qed.

Lemma serial_from (return_object : task → option hint)
    (blocks : list (task * Message * Message)) :
  Forall (λ b, msg_type b.1.2 = "http.response.start"
               ∧ msg_type b.2 = "http.response.body") blocks →
  ∀ s,
    sent_a (foldl (step_of return_object) s (serial blocks))
    = sent_a s ++ concat (map (block_reply return_object)
                            (filter (λ b, b.1.1 = TaskA) blocks))
    ∧ sent_b (foldl (step_of return_object) s (serial blocks))
    = sent_b s ++ concat (map (block_reply return_object)
                            (filter (λ b, b.1.1 = TaskB) blocks)).
Proof.
  induction 1 as [|[[who start] body] blocks [Hs Hb] _ IH]; intros s.
  - cbn. by rewrite !app_nil_r.
  - change (serial (((who, start), body) :: blocks))
      with ([(who, start); (who, body)] ++ serial blocks).
    rewrite foldl_app. cbn [foldl]. unfold step_of at 2 3 5 6. cbn [fst snd] in *.
    rewrite block_step by done.
    destruct who.
    + destruct (IH (mkTasks (Some start)
                      (sent_a s ++ block_reply return_object (TaskA, start, body))
                      (sent_b s))) as [-> ->].
      cbn [sent_a sent_b]. rewrite filter_cons_True by done.
      rewrite (filter_cons_False (λ b : task * Message * Message, b.1.1 = TaskB))
        by done.
      cbn [map concat]. by rewrite <- app_assoc.
    + destruct (IH (mkTasks (Some start) (sent_a s)
                      (sent_b s ++ block_reply return_object (TaskB, start, body))))
        as [-> ->].
      cbn [sent_a sent_b].
      rewrite (filter_cons_False (λ b : task * Message * Message, b.1.1 = TaskA))
        by done.
      rewrite filter_cons_True by done.
      cbn [map concat]. by rewrite <- app_assoc.
Qed.

Lemma serial_filter (who : task) (blocks : list (task * Message * Message)) :
  filter (λ ev : task * Message, ev.1 = who) (serial blocks)
  = serial (filter (λ b, b.1.1 = who) blocks).
Proof.
  induction blocks as [|[[t start] body] blocks IH]; [done|].
  change (serial (((t, start), body) :: blocks))
    with ((t, start) :: (t, body) :: serial blocks).
  destruct (decide (t = who)) as [Heq|Hne].
  - rewrite !filter_cons_True by done. rewrite IH. reflexivity.
  - rewrite !filter_cons_False by done. exact IH.
Qed.

(** X21: requests whose responses do not overlap do not disturb one
    another: when every task sends its header announcement and its body
    before the next task sends anything, each task is sent exactly what it
    would be sent if the other task's events were taken out. *)
Theorem serial_requests_are_isolated (return_object : task → option hint)
    (blocks : list (task * Message * Message)) :
  Forall (λ b, msg_type b.1.2 = "http.response.start"
               ∧ msg_type b.2 = "http.response.body") blocks →
  isolated return_object (serial blocks)
  ∧ sent_a (interleave return_object (serial blocks))
    = concat (map (block_reply return_object) (filter (λ b, b.1.1 = TaskA) blocks))
  ∧ sent_b (interleave return_object (serial blocks))
    = concat (map (block_reply return_object) (filter (λ b, b.1.1 = TaskB) blocks)).
Proof.
  intros Hblocks.
  destruct (serial_from return_object blocks Hblocks (mkTasks None [] [])) as [Ha Hb].
  assert (∀ who, Forall (λ b : task * Message * Message,
                    msg_type b.1.2 = "http.response.start"
                    ∧ msg_type b.2 = "http.response.body")
                   (filter (λ b, b.1.1 = who) blocks)) as Hsub.
  { intros who. rewrite Forall_forall in Hblocks |- *. intros b Hin.
    apply Hblocks. by apply list_elem_of_filter in Hin as [_ ?]. }
  destruct (serial_from return_object _ (Hsub TaskA) (mkTasks None [] [])) as [Haa _].
  destruct (serial_from return_object _ (Hsub TaskB) (mkTasks None [] [])) as [_ Hbb].
  unfold isolated, alone, interleave. rewrite !serial_filter.
  change (foldl (λ s ev, task_send return_object ev.1 ev.2 s))
    with (foldl (step_of return_object)).
  rewrite Ha, Hb, Haa, Hbb. cbn [sent_a sent_b app].
  rewrite !list_filter_filter.
  split_and!; [| |done..]; do 2 f_equal; apply list_filter_iff; intros b; tauto.
Qed.

End Serial.

(** ** The further properties on concrete requests *)

(** The request of the repository's client. *)
Lemma json_scope_passes_through_witness :
  is_protobuf_request
    (with_scope_headers (protobuf_post "/classroom")
       (json_scope_headers (scope_headers (protobuf_post "/classroom")))) = false
  ∧ dict (json_scope_headers (scope_headers (protobuf_post "/classroom")))
      !! "content-type" = Some json_media_type.
Proof. apply (json_scope_passes_through (protobuf_post "/classroom")). reflexivity. Defined.

(** Two chunks, then the disconnect. *)
Lemma drain_stops_at_last_chunk_witness :
  drain (connection [http_request "ab" true; http_request "cd" false; http_disconnect])
  = (Ok (String.concat EmptyString
           (map body_of ([http_request "ab" true] ++ [http_request "cd" false]))),
     mkWorld [http_disconnect] [] None 0).
Proof.
  apply (drain_stops_at_last_chunk [http_request "ab" true] (http_request "cd" false)
           [http_disconnect]
           (connection [http_request "ab" true; http_request "cd" false;
                        http_disconnect])).
  - repeat constructor.
  - vm_compute. discriminate.
  - reflexivity.
Defined.

(** A first chunk, then nothing more. *)
Lemma drain_on_disconnect_witness :
  drain (connection [http_request "ab" true])
  = (Ok (String.concat EmptyString (map body_of [http_request "ab" true])),
     mkWorld [] [] None 0).
Proof.
  apply (drain_on_disconnect [http_request "ab" true]
           (connection [http_request "ab" true])).
  - repeat constructor.
  - reflexivity.
Defined.

(** A plain route with the path of the endpoint comes first. *)
Lemma find_endpoint_first_api_route_witness :
  find_endpoint ([BaseRoute "/classroom"] ++ APIRoute "/classroom" classroom_endpoint
                 :: [APIRoute "/classroom" (mkEndpoint (H := school_codec) [] None)])
    "/classroom"
  = Ok classroom_endpoint.
Proof.
  apply (find_endpoint_first_api_route [BaseRoute "/classroom"]
           [APIRoute "/classroom" (mkEndpoint (H := school_codec) [] None)]
           "/classroom" classroom_endpoint).
  intros other Hin. apply list_elem_of_singleton in Hin. discriminate.
Defined.

(** The documentation page is not an [APIRoute]. *)
Lemma call_unknown_path_404_witness :
  __call__ routes (classroom_app 1) (protobuf_post "/docs")
    (connection [http_request math_wire false])
  = (Raise (HTTPException 404 "Endpoint not found"),
     drained (connection [http_request math_wire false])).
Proof.
  apply (call_unknown_path_404 routes (classroom_app 1) (protobuf_post "/docs")).
  - reflexivity.
  - intros endpoint Hin. unfold routes in Hin.
    repeat (apply elem_of_cons in Hin as [Hin|Hin]; [discriminate|]).
    by apply elem_of_nil in Hin.
Defined.

(** An endpoint without a return annotation. *)
Lemma call_unusable_signature_400_witness :
  __call__ [APIRoute "/classroom"
              (mkEndpoint [("classroom", ProtoClass (H := school_codec) ClassroomCls)]
                          None)]
    (classroom_app 1) (protobuf_post "/classroom")
    (connection [http_request math_wire false])
  = (Raise signature_error, drained (connection [http_request math_wire false])).
Proof.
  apply (call_unusable_signature_400
           [APIRoute "/classroom"
              (mkEndpoint [("classroom", ProtoClass (H := school_codec) ClassroomCls)]
                          None)]
           (classroom_app 1) (protobuf_post "/classroom")
           (connection [http_request math_wire false])
           (mkEndpoint [("classroom", ProtoClass (H := school_codec) ClassroomCls)]
                       None)).
  - reflexivity.
  - reflexivity.
  - left. reflexivity.
Defined.

(** A websocket scope that names the binary media type. *)
Lemma call_other_scopes_pass_through_witness :
  __call__ routes (classroom_app 1)
    (mkScope "websocket" "GET" "/classroom" [("content-type", protobuf_media_type)])
    (connection [])
  = await_app (classroom_app 1)
      (mkScope "websocket" "GET" "/classroom" [("content-type", protobuf_media_type)])
      receive send (connection []).
Proof.
  apply (call_other_scopes_pass_through routes (classroom_app 1)
           (mkScope "websocket" "GET" "/classroom"
              [("content-type", protobuf_media_type)])).
  left. discriminate.
Defined.

(** A body event with the text of an error page. *)
Lemma new_send_raises_before_sending_witness :
  (new_send true stats_class (http_response_body "Not Found" false) captured_w).2
  = captured_w.
Proof.
  apply (new_send_raises_before_sending true stats_class
           (http_response_body "Not Found" false) captured_w
           (new_send true stats_class (http_response_body "Not Found" false)
              captured_w).2
           ValueError).
  vm_compute. reflexivity.
Defined.

(** The body of the stats, sent without a header announcement. *)
Lemma body_before_announcement_witness :
  drive receive (new_send true stats_class)
    (emit (http_response_body stats_json false :: [json_start 200 "a"]))
    (connection [])
  = (Raise (AttributeError "start_message"), connection []).
Proof.
  apply (body_before_announcement (H := school_codec) ClassStatsCls
           (http_response_body stats_json false) stats_json
           (ClassStatsMsg math_stats) [json_start 200 "a"] receive (connection []));
    [reflexivity|reflexivity|vm_compute; reflexivity|reflexivity].
Defined.

(** Two header announcements and no body. *)
Lemma announcements_are_withheld_witness :
  drive receive (new_send true stats_class)
    (emit [json_start 200 "a"; json_start 201 "b"]) (connection [])
  = (Ok (), mkWorld [] []
              (from_option Some None (last [json_start 200 "a"; json_start 201 "b"]))
              0).
Proof.
  apply (announcements_are_withheld stats_class
           [json_start 200 "a"; json_start 201 "b"] receive (connection [])).
  repeat constructor.
Defined.

(** The framework's answer to an unprocessable request. *)
Lemma undecodable_response_is_dropped_witness :
  drive receive (new_send true stats_class)
    (emit (json_start 422 "a" :: http_response_body "Unprocessable Entity" false :: []))
    (connection [])
  = (Raise ValueError, mkWorld [] [] (Some (json_start 422 "a")) 0).
Proof.
  apply (undecodable_response_is_dropped (H := school_codec) ClassStatsCls
           (json_start 422 "a") (http_response_body "Unprocessable Entity" false)
           "Unprocessable Entity" [] receive (connection []));
    [reflexivity|reflexivity|reflexivity|vm_compute; reflexivity].
Defined.

(** The classroom of three, posted in one chunk and followed by the disconnect. *)
Lemma call_binary_trace_witness :
  ∃ added,
    outbound (__call__ routes (classroom_app 1) (protobuf_post "/classroom")
                (connection [http_request math_wire false; http_disconnect])).2
      = outbound (connection [http_request math_wire false; http_disconnect]) ++ added
    ∧ binary_trace added
    ∧ Forall (λ m, msg_type m = "http.response.body" → msg_more_body m = Some false)
             added
    ∧ Forall (λ m, msg_type m = "http.response.start" →
                   ∃ kept length_text,
                     msg_headers m
                     = Some (kept ++ [("content-length", length_text);
                                      ("content-type", protobuf_media_type)]))
             added.
Proof.
  apply (call_binary_trace routes (classroom_app 1) (protobuf_post "/classroom")
           (connection [http_request math_wire false; http_disconnect])).
  - reflexivity.
  - intros start Hnone. discriminate.
Defined.

Lemma call_binary_keeps_later_events_witness :
  inbound (__call__ routes (classroom_app 1) (protobuf_post "/classroom")
             (connection [http_request math_wire false; http_disconnect])).2
    = (read_body EmptyString [http_request math_wire false; http_disconnect]).2
  ∧ (invocations (__call__ routes (classroom_app 1) (protobuf_post "/classroom")
                    (connection [http_request math_wire false; http_disconnect])).2
       = invocations (connection [http_request math_wire false; http_disconnect])
     ∨ invocations (__call__ routes (classroom_app 1) (protobuf_post "/classroom")
                      (connection [http_request math_wire false; http_disconnect])).2
       = S (invocations (connection [http_request math_wire false; http_disconnect]))).
Proof.
  apply (call_binary_keeps_later_events routes (classroom_app 1)
           (protobuf_post "/classroom")
           (connection [http_request math_wire false; http_disconnect])).
  reflexivity.
Defined.

(** A classroom of one, posted in one chunk. *)
Lemma binary_post_nonempty_classroom_witness :
  ∃ w',
    __call__ routes (classroom_app 1) (protobuf_post "/classroom")
      (connection (request_chunks
                     (wire_SerializeToString (ClassroomMsg (mkClassroom "Solo" [jim])))
                     [])) = (Ok (), w')
    ∧ sent_since
        (connection (request_chunks
                       (wire_SerializeToString (ClassroomMsg (mkClassroom "Solo" [jim])))
                       [])) w'
      = [ http_response_start 200
            [("content-length",
              str_encode (String.length
                (wire_SerializeToString
                   (ClassStatsMsg (mkClassStats 1 (true_div (builtin_sum [88.0%float]) 1))))));
             ("content-type", protobuf_media_type)];
          http_response_body
            (wire_SerializeToString
               (ClassStatsMsg (mkClassStats 1 (true_div (builtin_sum [88.0%float]) 1))))
            false ]
    ∧ inbound w' = [].
Proof.
  apply (binary_post_nonempty_classroom (mkClassroom "Solo" [jim])
           (protobuf_post "/classroom")
           (wire_SerializeToString (ClassroomMsg (mkClassroom "Solo" [jim]))) [] [] 0
           (connection (request_chunks
                          (wire_SerializeToString
                             (ClassroomMsg (mkClassroom "Solo" [jim]))) [])));
    [discriminate|reflexivity|reflexivity|reflexivity|reflexivity
    |vm_compute; reflexivity..].
Defined.

(** A classroom without students, posted in one chunk. *)
Lemma binary_post_empty_classroom_witness :
  ∃ w',
    __call__ routes (classroom_app 1) (protobuf_post "/classroom")
      (connection (request_chunks empty_wire [])) = (Raise ZeroDivisionError, w')
    ∧ is_client_error ZeroDivisionError = false
    ∧ sent_since (connection (request_chunks empty_wire [])) w' = []
    ∧ invocations w' = S (invocations (connection (request_chunks empty_wire []))).
Proof.
  apply (binary_post_empty_classroom (protobuf_post "/classroom") "Art"
           empty_wire [] [] 0 (connection (request_chunks empty_wire [])));
    [reflexivity|reflexivity|reflexivity|reflexivity|vm_compute; reflexivity..].
Defined.

(** The classroom of three at the string server. *)
Lemma string_server_agrees_with_handler_witness :
  GoogleStringServer.summarize_classroom demo_exn_str (Ok math_wire)
  = match summarize_classroom math_class with
    | Ok stats => Ok (mkResponse 200 (wire_SerializeToString (ClassStatsMsg stats)))
    | Raise e => Raise (HTTPException 400 ("Exception: " +:+ demo_exn_str e))
    end.
Proof.
  apply (string_server_agrees_with_handler demo_exn_str math_wire math_class).
  vm_compute. reflexivity.
Defined.

Example string_server_on_empty_classroom :
  GoogleStringServer.summarize_classroom demo_exn_str (Ok empty_wire)
  = Raise (HTTPException 400 "Exception: division by zero").
Proof. vm_compute. reflexivity. Qed.

Example string_server_on_truncated_bytes :
  GoogleStringServer.summarize_classroom demo_exn_str (Ok math_wire_head)
  = Raise (HTTPException 400 "Exception: Error parsing message").
Proof. vm_compute. reflexivity. Qed.

(** Request a answered in full, then request b. *)
Lemma serial_requests_are_isolated_witness :
  isolated stats_return
    (serial [ (TaskA, json_start 200 "a", http_response_body stats_json false);
              (TaskB, json_start 201 "b", http_response_body stats_json false) ])
  ∧ sent_a (interleave stats_return
              (serial [ (TaskA, json_start 200 "a", http_response_body stats_json false);
                        (TaskB, json_start 201 "b", http_response_body stats_json false) ]))
    = concat (map (block_reply stats_return)
                (filter (λ b, b.1.1 = TaskA)
                   [ (TaskA, json_start 200 "a", http_response_body stats_json false);
                     (TaskB, json_start 201 "b", http_response_body stats_json false) ]))
  ∧ sent_b (interleave stats_return
              (serial [ (TaskA, json_start 200 "a", http_response_body stats_json false);
                        (TaskB, json_start 201 "b", http_response_body stats_json false) ]))
    = concat (map (block_reply stats_return)
                (filter (λ b, b.1.1 = TaskB)
                   [ (TaskA, json_start 200 "a", http_response_body stats_json false);
                     (TaskB, json_start 201 "b", http_response_body stats_json false) ])).
Proof.
  apply (serial_requests_are_isolated stats_return
           [ (TaskA, json_start 200 "a", http_response_body stats_json false);
             (TaskB, json_start 201 "b", http_response_body stats_json false) ]).
  repeat constructor.
Defined.

Example serial_reply_to_a :
  sent_a (interleave stats_return
            (serial [ (TaskA, json_start 200 "a", http_response_body stats_json false);
                      (TaskB, json_start 201 "b", http_response_body stats_json false) ]))
  = framed (json_start 200 "a")
      [("x-request-id", "a"); ("content-type", json_media_type)]
      (wire_SerializeToString (ClassStatsMsg math_stats)).
Proof. vm_compute. reflexivity. Qed.
